(** * view_imgs: matrix-style HTML gallery, verified against its specification

    A shallow embedding of [src/view_imgs.py].  Python [str] values are
    modelled as [string] (sequences of bytes, UTF-8), file contents as
    [list byte], the list [parts] that [build_html] appends to as
    [list string], and a raised exception as [None].

    The library calls of the script are handled as follows.
    - [base64.b64encode], [html.escape], [sorted], [str.join] and
      [str.lower] are modelled by the executable definitions below.
    - [pathlib], the file system and the [mimetypes] database are an
      interface ([PathOps], [FileSystem]); every theorem holds for all
      implementations, and [Module Ref] gives one for evaluation. *)

From Stdlib Require Import List String Ascii Bool Arith ZArith Lia.
From Stdlib.Strings Require Import Byte.
From Stdlib Require Import Permutation Sorted DecimalString OrderedTypeEx.
Import ListNotations.
Local Open Scope list_scope.
Local Open Scope string_scope.

(** ** Exceptions as [option] *)

Notation "x <- c ;; k" :=
  (match c with Some x => k | None => None end)
  (at level 61, c at next level, right associativity).

(** ** Base64 (RFC 4648, the alphabet of [base64.b64encode]) *)

Module Base64.

(** Six bits, most significant first. *)
Definition sextet : Type := bool * bool * bool * bool * bool * bool.

Definition alphabet : string :=
  "ABCDEFGHIJKLMNOPQRSTUVWXYZabcdefghijklmnopqrstuvwxyz0123456789+/".

Definition pad : ascii := "="%char.

Definition bit (b : bool) (w : nat) : nat := if b then w else 0.

Definition sextet_index (s : sextet) : nat :=
  let '(b5, b4, b3, b2, b1, b0) := s in
  bit b5 32 + bit b4 16 + bit b3 8 + bit b2 4 + bit b1 2 + bit b0 1.

Definition index_sextet (n : nat) : sextet :=
  (Nat.testbit n 5, Nat.testbit n 4, Nat.testbit n 3,
   Nat.testbit n 2, Nat.testbit n 1, Nat.testbit n 0).

Definition char_of_sextet (s : sextet) : ascii :=
  match String.get (sextet_index s) alphabet with
  | Some c => c
  | None => pad
  end.

Definition sextet_of_char (c : ascii) : option sextet :=
  match String.index 0 (String c EmptyString) alphabet with
  | Some n => Some (index_sextet n)
  | None => None
  end.

(** Three bytes are 24 bits, regrouped as four sextets.  [Byte.to_bits]
    lists the bits of a byte least significant first. *)
Definition sextets_of_bytes (x y z : byte) : sextet * sextet * sextet * sextet :=
  let '(x0, (x1, (x2, (x3, (x4, (x5, (x6, x7))))))) := Byte.to_bits x in
  let '(y0, (y1, (y2, (y3, (y4, (y5, (y6, y7))))))) := Byte.to_bits y in
  let '(z0, (z1, (z2, (z3, (z4, (z5, (z6, z7))))))) := Byte.to_bits z in
  ((x7, x6, x5, x4, x3, x2), (x1, x0, y7, y6, y5, y4),
   (y3, y2, y1, y0, z7, z6), (z5, z4, z3, z2, z1, z0)).

Definition bytes_of_sextets (a b c d : sextet) : byte * byte * byte :=
  let '(a5, a4, a3, a2, a1, a0) := a in
  let '(b5, b4, b3, b2, b1, b0) := b in
  let '(c5, c4, c3, c2, c1, c0) := c in
  let '(d5, d4, d3, d2, d1, d0) := d in
  (Byte.of_bits (b4, (b5, (a0, (a1, (a2, (a3, (a4, a5))))))),
   Byte.of_bits (c2, (c3, (c4, (c5, (b0, (b1, (b2, b3))))))),
   Byte.of_bits (d0, (d1, (d2, (d3, (d4, (d5, (c0, c1)))))))).

Definition zero : byte := Byte.x00.

Fixpoint b64encode (bs : list byte) : string :=
  match bs with
  | [] => EmptyString
  | [x] =>
      let '(a, b, _, _) := sextets_of_bytes x zero zero in
      String (char_of_sextet a) (String (char_of_sextet b)
        (String pad (String pad EmptyString)))
  | [x; y] =>
      let '(a, b, c, _) := sextets_of_bytes x y zero in
      String (char_of_sextet a) (String (char_of_sextet b)
        (String (char_of_sextet c) (String pad EmptyString)))
  | x :: y :: z :: rest =>
      let '(a, b, c, d) := sextets_of_bytes x y z in
      String (char_of_sextet a) (String (char_of_sextet b)
        (String (char_of_sextet c) (String (char_of_sextet d)
          (b64encode rest))))
  end.

(** Strict decoder: groups of four characters, padding only in the last
    group. *)
Fixpoint b64decode (s : string) : option (list byte) :=
  match s with
  | EmptyString => Some []
  | String c1 (String c2 (String c3 (String c4 rest))) =>
      a <- sextet_of_char c1 ;;
      b <- sextet_of_char c2 ;;
      if Ascii.eqb c4 pad then
        match rest with
        | EmptyString =>
            if Ascii.eqb c3 pad then
              let '(x, _, _) := bytes_of_sextets a b (index_sextet 0) (index_sextet 0) in
              Some [x]
            else
              c <- sextet_of_char c3 ;;
              let '(x, y, _) := bytes_of_sextets a b c (index_sextet 0) in
              Some [x; y]
        | _ => None
        end
      else
        c <- sextet_of_char c3 ;;
        d <- sextet_of_char c4 ;;
        tl <- b64decode rest ;;
        let '(x, y, z) := bytes_of_sextets a b c d in
        Some (x :: y :: z :: tl)
  | _ => None
  end.

End Base64.

(** ** Strings: [str.lower], [html.escape], [sorted], decimal printing *)

Definition nl : string := String (ascii_of_nat 10) EmptyString.

(** [str.lower] on the ASCII letters.  No character outside ASCII lowers
    to one of the letters of [IMAGE_EXTS], so for the membership tests
    of the script this agrees with Python's Unicode [lower]. *)
Definition lower_char (c : ascii) : ascii :=
  let n := nat_of_ascii c in
  if ((65 <=? n) && (n <=? 90))%nat then ascii_of_nat (n + 32) else c.

Fixpoint lower (s : string) : string :=
  match s with
  | EmptyString => EmptyString
  | String c t => String (lower_char c) (lower t)
  end.

Module Html.

Definition dquote : ascii := ascii_of_nat 34.
Definition squote : ascii := ascii_of_nat 39.

(** [s.replace(c, r)] for a one-character [c]. *)
Fixpoint replace_char (c : ascii) (r : string) (s : string) : string :=
  match s with
  | EmptyString => EmptyString
  | String a t =>
      if Ascii.eqb a c then r ++ replace_char c r t
      else String a (replace_char c r t)
  end.

(** [html.escape(s)] with its default [quote=True]: five successive
    replacements, the ampersand first. *)
Definition escape (s : string) : string :=
  let s := replace_char "&" "&amp;" s in
  let s := replace_char "<" "&lt;" s in
  let s := replace_char ">" "&gt;" s in
  let s := replace_char dquote "&quot;" s in
  replace_char squote "&#x27;" s.

(** What the five replacements do to one character. *)
Definition escape_char (c : ascii) : string :=
  if Ascii.eqb c "&" then "&amp;"
  else if Ascii.eqb c "<" then "&lt;"
  else if Ascii.eqb c ">" then "&gt;"
  else if Ascii.eqb c dquote then "&quot;"
  else if Ascii.eqb c squote then "&#x27;"
  else String c EmptyString.

(** The characters that open or close markup in the document: tag
    brackets and attribute quotes. *)
Definition is_delim (c : ascii) : bool :=
  Ascii.eqb c "<" || Ascii.eqb c ">" || Ascii.eqb c dquote || Ascii.eqb c squote.

(** The markup skeleton of a string: its delimiter characters, in order. *)
Fixpoint skeleton (s : string) : string :=
  match s with
  | EmptyString => EmptyString
  | String a t => if is_delim a then String a (skeleton t) else skeleton t
  end.

End Html.

(** [sorted] on a list of [str]: comparison by code point, which on
    UTF-8 is comparison of the byte sequences. *)
Fixpoint insert_sorted (x : string) (l : list string) : list string :=
  match l with
  | [] => [x]
  | y :: t => if String.ltb x y then x :: y :: t else y :: insert_sorted x t
  end.

Fixpoint sorted (l : list string) : list string :=
  match l with
  | [] => []
  | x :: t => insert_sorted x (sorted t)
  end.

(** [x <= y] on [str]. *)
Definition str_le (x y : string) : Prop := String.leb x y = true.

(** [str(n)] for a length and for an [int]. *)
Definition decimal_nat (n : nat) : string :=
  NilZero.string_of_uint (Nat.to_uint n).

Definition decimal_int (z : Z) : string :=
  NilZero.string_of_int (Z.to_int z).

(** ** The interface to [pathlib], the file system and [mimetypes] *)

Class PathOps : Type := {
  Path : Type;
  joinpath : Path -> string -> Path;      (* [p / s] *)
  name : Path -> string;                  (* [p.name] *)
  suffix : Path -> string;                (* [p.suffix] *)
  str : Path -> string;                   (* [str(p)] *)
  parent : Path -> Path                   (* [p.parent] *)
}.

Class FileSystem (P : PathOps) : Type := {
  World : Type;
  exists_ : World -> Path -> bool;                       (* [p.exists()] *)
  is_file : World -> Path -> bool;                       (* [p.is_file()] *)
  is_dir : World -> Path -> bool;                        (* [p.is_dir()] *)
  iterdir : World -> Path -> option (list Path);         (* [p.iterdir()] *)
  read_bytes : World -> Path -> option (list byte);      (* [open(p, "rb").read()] *)
  resolve : World -> Path -> Path;                       (* [p.resolve()] *)
  mkdir_parents : World -> Path -> option World;         (* [p.mkdir(parents=True, exist_ok=True)] *)
  write_text : World -> Path -> string -> option World;  (* [p.write_text(s, encoding="utf-8")] *)
  guess_type : World -> string -> option string          (* [mimetypes.guess_type(s)[0]] *)
}.

Declare Scope path_scope.
Notation "p </> s" := (joinpath p s) (at level 40, left associativity) : path_scope.
Local Open Scope path_scope.

(** ** The script *)

Definition DEFAULT_SUBFOLDERS : list string :=
  ["allResult"; "est_center_map"; "img_bb"].

Definition IMAGE_EXTS : list string :=
  [".png"; ".jpg"; ".jpeg"; ".bmp"; ".gif"; ".webp"].

Definition mem (s : string) (l : list string) : bool :=
  existsb (String.eqb s) l.

Definition MIME_TABLE : list (string * string) :=
  [(".jpg", "image/jpeg"); (".jpeg", "image/jpeg");
   (".png", "image/png"); (".gif", "image/gif");
   (".bmp", "image/bmp"); (".webp", "image/webp")].

(** [d.get(k, default)] *)
Fixpoint dict_get (d : list (string * string)) (k default : string) : string :=
  match d with
  | [] => default
  | (k', v) :: t => if String.eqb k k' then v else dict_get t k default
  end.

(** Loops that append to [parts], any iteration of which may raise. *)
Fixpoint for_each {A : Type} (body : A -> option (list string)) (l : list A)
  : option (list string) :=
  match l with
  | [] => Some []
  | x :: t => a <- body x ;; b <- for_each body t ;; Some (a ++ b)%list
  end.

(** The value of [grid-template-columns] in the style sheet: one track
    for the original and [len(subfolders)] repeated tracks. *)
Definition grid_template_columns (subfolders : list string) : string :=
  "minmax(220px, 1fr) repeat(" ++ decimal_nat (List.length subfolders)
  ++ ", minmax(220px, 1fr));".

(** Lines 64-91: the f-string [css]. *)
Definition css (subfolders : list string) (max_height : Z) : string :=
  "
    :root {
      --cell-pad: 8px;
      --card-bg: #0c1117;
      --card-bd: #1e2530;
      --missing-bg: #3f1d1d;
      --missing-bd: #7f1d1d;
      --text-dim: #a1adb9;
    }
    html,body{background:#0b0c10;color:#e6edf3;margin:0}
    .page{max-width:1400px;margin:0 auto;padding:24px}
    h1{font-size:22px;margin:0 0 8px}
    .meta{font-size:12px;color:#9da7b3;margin-bottom:18px}
    .block{background:#0e141b;border:1px solid #1f2630;border-radius:14px;margin:18px 0;overflow:hidden}
    .block_head{display:flex;justify-content:space-between;align-items:center;padding:12px 16px;background:#111821;border-bottom:1px solid #1f2630}
    .fname{font-weight:700}
    .chips{font-size:12px;color:#9da7b3}
    .grid{display:grid;gap:10px;padding:12px 12px 18px 12px;grid-template-columns:
           " ++ grid_template_columns subfolders ++ "}
    .hdr{font-size:12px;color:" ++ "#9cd1ff" ++ ";align-self:end}
    .cell{background:var(--card-bg);border:1px solid var(--card-bd);border-radius:10px;padding:var(--cell-pad)}
    .label{font-size:12px;color:var(--text-dim);margin:2px 0 6px 0}
    img{max-height:" ++ decimal_int max_height ++ "px;max-width:100%;display:block;border-radius:6px}
    .missing{font-size:12px;color:#fca5a5;padding:6px 8px;border:1px solid var(--missing-bd);
              background:var(--missing-bg);border-radius:6px}
    .center{display:flex;align-items:center;justify-content:center;min-height:60px}
    .placeholder{background:transparent;border:0}
    ".

Section Script.

Context {P : PathOps} {FS : FileSystem P}.

(** [if mime:] holds for a non-empty string only. *)
Definition guess_mime (w : World) (path : Path) : string :=
  let mime := guess_type w (str path) in
  match mime with
  | Some (String c t) => String c t
  | _ =>
      let ext := lower (suffix path) in
      dict_get MIME_TABLE ext "application/octet-stream"
  end.

Definition encode_data_uri (w : World) (path : Path) : option string :=
  b <- read_bytes w path ;;
  let b64 := Base64.b64encode b in
  Some ("data:" ++ guess_mime w path ++ ";base64," ++ b64).

Definition is_image (w : World) (p : Path) : bool :=
  is_file w p && mem (lower (suffix p)) IMAGE_EXTS.

Definition list_org_files (w : World) (org_dir : Path) : option (list string) :=
  ps <- iterdir w org_dir ;;
  Some (sorted (map name (filter (is_image w) ps))).

Definition cols (subfolders : list string) : nat := 1 + List.length subfolders.

Definition MISSING : string := "<div class='missing'>MISSING</div>".
Definition ORIGINAL_MISSING : string :=
  "<div class='cell center'><div class='missing'>Original MISSING</div></div>".
Definition NO_MODEL : string :=
  "<div class='cell center'><div class='missing'>No model</div></div>".
Definition PLACEHOLDER : string := "<div class='cell placeholder'></div>".

Definition CELL_OPEN : string := "<div class='cell'>".

Definition img_tag (uri alt : string) : string :=
  "<img src='" ++ uri ++ "' alt='" ++ alt ++ "'>".

Definition label_div (label sub : string) : string :=
  "<div class='label'>" ++ Html.escape label ++ " / " ++ Html.escape sub ++ "</div>".

Definition fname_div (fname : string) : string :=
  "<div class='fname'>" ++ Html.escape fname ++ "</div>".

Definition hdr_div (sub : string) : string :=
  "<div class='hdr'>" ++ Html.escape sub ++ "</div>".

Definition model_alt (label sub fname : string) : string :=
  Html.escape label ++ "/" ++ Html.escape sub ++ ":" ++ Html.escape fname.

(** Lines 125-132: column 0 of the first row. *)
Definition org_cell (w : World) (org_dir : Path) (fname : string)
  : option (list string) :=
  let org_path := org_dir </> fname in
  if exists_ w org_path then
    uri <- encode_data_uri w org_path ;;
    Some [CELL_OPEN;
          "<div class='label'>org_img</div>";
          img_tag uri ("org:" ++ Html.escape fname);
          "</div>"]
  else
    Some [ORIGINAL_MISSING].

(** Lines 137-144 and 154-161: the body of the loop over [subfolders]. *)
Definition model_cell (w : World) (m : Path) (label : string) (fname sub : string)
  : option (list string) :=
  let p := m </> sub </> fname in
  content <- (if exists_ w p then
                uri <- encode_data_uri w p ;;
                Some (img_tag uri (model_alt label sub fname))
              else Some MISSING) ;;
  Some [CELL_OPEN; label_div label sub; content; "</div>"].

(** Lines 134-148: the cells of the first row right of the original. *)
Definition first_row (w : World) (models : list Path) (model_labels : list string)
  (subfolders : list string) (fname : string) : option (list string) :=
  match models with
  | m0 :: _ =>
      label0 <- nth_error model_labels 0 ;;
      for_each (model_cell w m0 label0 fname) subfolders
  | [] => Some (map (fun _ => NO_MODEL) subfolders)
  end.

(** Lines 151-161: one row for each further model. *)
Definition other_row (w : World) (subfolders : list string) (fname : string)
  (ml : Path * string) : option (list string) :=
  let '(m, label) := ml in
  cells <- for_each (model_cell w m label fname) subfolders ;;
  Some (PLACEHOLDER :: cells).

(** Lines 110-164: the body of the loop over [org_files]. *)
Definition section (w : World) (org_dir : Path) (models : list Path)
  (model_labels : list string) (subfolders : list string) (fname : string)
  : option (list string) :=
  org <- org_cell w org_dir fname ;;
  row1 <- first_row w models model_labels subfolders fname ;;
  rows <- for_each (other_row w subfolders fname)
            (combine (tl models) (tl model_labels)) ;;
  Some (["<section class='block'>";
         "<div class='block_head'>";
         fname_div fname;
         "<div class='chips'>org + per-folder model comparison</div>";
         "</div>";
         "<div class='grid'>";
         "<div class='hdr'></div>"]
        ++ map hdr_div subfolders
        ++ org ++ row1 ++ rows
        ++ ["</div>"; "</section>"])%list.

(** Lines 93-106: the document head and the metadata line. *)
Definition head_parts (org_dir : Path) (models : list Path)
  (subfolders : list string) (title : string) (max_height : Z) : list string :=
  ["<!DOCTYPE html>";
   "<html lang='ja'><head><meta charset='utf-8'>";
   "<title>" ++ Html.escape title ++ "</title>";
   "<meta name='viewport' content='width=device-width,initial-scale=1'>";
   "<style>"; css subfolders max_height; "</style>";
   "</head><body><div class='page'>";
   "<h1>" ++ Html.escape title ++ "</h1>";
   "<div class='meta'>";
   "Org: <code>" ++ Html.escape (str org_dir) ++ "</code> | ";
   "Models: "
     ++ String.concat ", "
          (map (fun m => "<code>" ++ Html.escape (str m) ++ "</code>") models)
     ++ " | ";
   "Folders: "
     ++ String.concat ", "
          (map (fun s => "<code>" ++ Html.escape s ++ "</code>") subfolders);
   "</div>"].

(** The list [parts] at line 167. *)
Definition build_parts (w : World) (org_dir : Path) (models : list Path)
  (subfolders : list string) (title : string) (max_height : Z)
  : option (list string) :=
  org_files <- list_org_files w org_dir ;;
  let model_labels := map name models in
  sections <- for_each (section w org_dir models model_labels subfolders) org_files ;;
  Some (head_parts org_dir models subfolders title max_height
        ++ sections
        ++ ["</div></body></html>"])%list.

Definition build_html (w : World) (org_dir : Path) (models : list Path)
  (subfolders : list string) (title : string) (max_height : Z) : option string :=
  parts <- build_parts w org_dir models subfolders title max_height ;;
  Some (String.concat nl parts).

(** Lines 110-119: the parts that open a section, its grid and its
    header row. *)
Definition section_open (fname : string) : list string :=
  ["<section class='block'>";
   "<div class='block_head'>";
   fname_div fname;
   "<div class='chips'>org + per-folder model comparison</div>";
   "</div>";
   "<div class='grid'>";
   "<div class='hdr'></div>"].

(** Where the parts of a section lie: seven parts open the section
    and its grid, the header row has one part per column, the original
    cell has four parts or one, a model cell four, and every later row
    starts with the placeholder. *)
Definition org_cell_offset (subfolders : list string) : nat :=
  7 + List.length subfolders.

Definition org_cell_size (w : World) (org_dir : Path) (fname : string) : nat :=
  if exists_ w (org_dir </> fname) then 4 else 1.

Definition model_cell_offset (w : World) (org_dir : Path)
  (subfolders : list string) (fname : string) (i j : nat) : nat :=
  org_cell_offset subfolders + org_cell_size w org_dir fname
  + match i with
    | 0 => 4 * j
    | S i' => 4 * List.length subfolders
              + (1 + 4 * List.length subfolders) * i' + 1 + 4 * j
    end.

(** The children of the grid of a section, as the layout of lines
    116-161 places them: the opening part of each cell, row by row. *)
Definition org_item (w : World) (org_dir : Path) (fname : string) : string :=
  if exists_ w (org_dir </> fname) then CELL_OPEN else ORIGINAL_MISSING.

Definition first_row_item (models : list Path) : string :=
  match models with
  | [] => NO_MODEL
  | _ :: _ => CELL_OPEN
  end.

Definition cell_rows (w : World) (org_dir : Path) (models : list Path)
  (subfolders : list string) (fname : string) : list (list string) :=
  (org_item w org_dir fname
     :: repeat (first_row_item models) (List.length subfolders))
  :: map (fun _ => PLACEHOLDER :: repeat CELL_OPEN (List.length subfolders))
       (tl models).

Definition hdr_row (subfolders : list string) : list string :=
  "<div class='hdr'></div>" :: map hdr_div subfolders.

(** The parsed command line. *)
Record Args : Type := {
  org : Path;
  models : list Path;
  folders : option (list string);
  out : Path;
  title : string;
  max_height : Z
}.

(** How the process ends: exit status 0 after the confirmation line,
    [SystemExit] with a message (status 1), or an uncaught exception
    (status 1). *)
Inductive outcome : Type :=
| Exit0 (stdout : string)
| SystemExit (message : string)
| Uncaught.

Definition exit_status (o : outcome) : nat :=
  match o with
  | Exit0 _ => 0
  | SystemExit _ => 1
  | Uncaught => 1
  end.

(** Line 186: [args.folders if args.folders else list(DEFAULT_SUBFOLDERS)];
    [None] and the empty list are both false. *)
Definition effective_subfolders (folders : option (list string)) : list string :=
  match folders with
  | Some (s :: l) => s :: l
  | _ => DEFAULT_SUBFOLDERS
  end.

(** Lines 180-190, after [parse_args]. *)
Definition main (w : World) (args : Args) : World * outcome :=
  if negb (is_dir w (org args)) then
    (w, SystemExit ("[ERROR] org dir not found or not a directory: " ++ str (org args)))
  else
    match find (fun m => negb (is_dir w m)) (models args) with
    | Some m =>
        (w, SystemExit ("[ERROR] model dir not found or not a directory: " ++ str m))
    | None =>
        let subfolders := effective_subfolders (folders args) in
        match build_html w (resolve w (org args)) (map (resolve w) (models args))
                subfolders (title args) (max_height args) with
        | None => (w, Uncaught)
        | Some html_str =>
            match mkdir_parents w (parent (out args)) with
            | None => (w, Uncaught)
            | Some w1 =>
                match write_text w1 (out args) html_str with
                | None => (w1, Uncaught)
                | Some w2 => (w2, Exit0 ("[OK] Wrote: " ++ str (out args)))
                end
            end
        end
    end.

End Script.

(** ** Views of the rendered parts used by the specification *)

(** The children of a grid are the parts that open a header or a cell;
    labels, images and markers are nested in a cell. *)
Definition is_hdr (p : string) : bool := String.prefix "<div class='hdr'" p.
Definition is_cell (p : string) : bool := String.prefix "<div class='cell" p.
Definition is_grid_item (p : string) : bool := is_hdr p || is_cell p.

Definition grid_items (parts : list string) : list string := filter is_grid_item parts.
Definition cell_items (parts : list string) : list string := filter is_cell parts.

(** A grid with [n] column tracks places its children row by row. *)
Fixpoint chunks_fuel (fuel n : nat) (l : list string) : list (list string) :=
  match fuel, l with
  | _, [] => []
  | 0, _ => []
  | S fuel', _ => firstn n l :: chunks_fuel fuel' n (skipn n l)
  end.

Definition grid_rows (n : nat) (l : list string) : list (list string) :=
  chunks_fuel (List.length l) n l.

(** [needle in s] *)
Fixpoint contains (needle s : string) : bool :=
  String.prefix needle s ||
  match s with
  | EmptyString => false
  | String _ t => contains needle t
  end.

(** The markup skeletons of the parts of the template when every
    interpolated string is empty. *)
Definition TEMPLATE_SKELETONS : list string :=
  [EmptyString; "<>"; "<''>"; "<><>"; "<''><>"; "<''''>"; "<><><>";
   "<><><''>"; "<''><><''>"; "<''><''><><>"].

(** The skeleton of [n] elements [<code>...</code>] joined by commas. *)
Fixpoint code_list_skeleton (n : nat) : string :=
  match n with
  | 0 => EmptyString
  | S k => "<><>" ++ code_list_skeleton k
  end.

(** A part whose markup is that of the template: its delimiters do not
    depend on the interpolated strings.  In an image tag this is said of
    the Base64 payload and of the [alt] text. *)
Definition markup_fixed (p : string) : Prop :=
  In (Html.skeleton p) TEMPLATE_SKELETONS
  \/ (exists n, Html.skeleton p = code_list_skeleton n)
  \/ (exists mime payload alt,
        p = img_tag ("data:" ++ mime ++ ";base64," ++ payload) alt
        /\ Html.skeleton payload = EmptyString
        /\ Html.skeleton alt = EmptyString).

(** ** Further views of the library values and of the rendered parts *)

Fixpoint string_forallb (f : ascii -> bool) (s : string) : bool :=
  match s with
  | EmptyString => true
  | String c t => f c && string_forallb f t
  end.

(** The characters of a Base64 text: [A-Z], [a-z], [0-9], [+], [/] and
    the padding [=]. *)
Definition is_b64_char (c : ascii) : bool :=
  let n := nat_of_ascii c in
  (((65 <=? n) && (n <=? 90)) || ((97 <=? n) && (n <=? 122))
   || ((48 <=? n) && (n <=? 57)) || (n =? 43) || (n =? 47) || (n =? 61))%nat.

(** The five characters that [html.escape] replaces. *)
Definition needs_escape (c : ascii) : bool :=
  Ascii.eqb c "&" || Ascii.eqb c "<" || Ascii.eqb c ">"
  || Ascii.eqb c Html.dquote || Ascii.eqb c Html.squote.

(** [s.count(needle)], for a needle that does not overlap itself. *)
Fixpoint count_str (needle s : string) : nat :=
  (if String.prefix needle s then 1 else 0)
  + match s with
    | EmptyString => 0
    | String _ t => count_str needle t
    end.

Definition no_newline (s : string) : bool :=
  string_forallb (fun c => negb (Ascii.eqb c (ascii_of_nat 10))) s.

Definition div_opens (p : string) : nat := count_str "<div" p.
Definition div_closes (p : string) : nat := count_str "</div>" p.

Definition total_div_opens (parts : list string) : nat :=
  list_sum (map div_opens parts).
Definition total_div_closes (parts : list string) : nat :=
  list_sum (map div_closes parts).

(** The parts that are an image tag, and those that are the marker of a
    missing model image. *)
Definition is_img (p : string) : bool := String.prefix "<img " p.
Definition is_missing (p : string) : bool := String.eqb p MISSING.

Section Expected.

Context {P : PathOps} {FS : FileSystem P}.

Definition present (w : World) (p : Path) : nat :=
  if exists_ w p then 1 else 0.

(** The model images of a filename that exist, over all models and
    subfolders. *)
Definition model_images (w : World) (models : list Path)
  (subfolders : list string) (fname : string) : nat :=
  list_sum
    (map (fun m =>
            list_sum (map (fun sub => present w (m </> sub </> fname)) subfolders))
         models).

(** What one model cell adds to a count of parts that are image tags
    ([fi]) or MISSING markers ([fm]). *)
Definition cell_count (fi fm : bool) (w : World) (fname : string) (m : Path)
  (sub : string) : nat :=
  if exists_ w (m </> sub </> fname) then Nat.b2n fi else Nat.b2n fm.

End Expected.

(** ** A reference implementation of the interface

    Pure POSIX paths without symbolic links: an absolute path is the
    list of its components, and a world maps a path to a regular file
    or to a directory with its entries in enumeration order. *)

Module Ref.

Definition path : Type := list string.

Fixpoint split_slash (acc : string) (s : string) : list string :=
  match s with
  | EmptyString => [acc]
  | String c t =>
      if Ascii.eqb c "/" then acc :: split_slash EmptyString t
      else split_slash (acc ++ String c EmptyString) t
  end.

Definition components (s : string) : list string :=
  filter (fun c => negb (String.eqb c EmptyString || String.eqb c "."))
         (split_slash EmptyString s).

Definition joinpath (p : path) (s : string) : path :=
  if String.prefix "/" s then components s else (p ++ components s)%list.

Definition name (p : path) : string := last p EmptyString.

Fixpoint rfind_dot (s : string) : option nat :=
  match s with
  | EmptyString => None
  | String c t =>
      match rfind_dot t with
      | Some i => Some (S i)
      | None => if Ascii.eqb c "." then Some 0 else None
      end
  end.

(** The suffix of a file name: from its last dot, unless that dot is the
    first or the last character. *)
Definition name_suffix (n : string) : string :=
  match rfind_dot n with
  | Some i =>
      if ((0 <? i) && (i <? String.length n - 1))%nat
      then String.substring i (String.length n - i) n
      else EmptyString
  | None => EmptyString
  end.

Definition suffix (p : path) : string := name_suffix (name p).

Definition str (p : path) : string :=
  match p with
  | [] => "/"
  | _ => String.concat EmptyString (map (fun c => "/" ++ c) p)
  end.

Definition parent (p : path) : path := removelast p.

#[export] Instance path_ops : PathOps :=
  Build_PathOps path joinpath name suffix str parent.

Inductive node : Type :=
| File (content : list byte)
| Dir (entries : list string).

Definition world : Type := path -> option node.

Definition path_eqb (p q : path) : bool :=
  if list_eq_dec String.string_dec p q then true else false.

Definition update (w : world) (p : path) (n : node) : world :=
  fun q => if path_eqb q p then Some n else w q.

Definition exists_ (w : world) (p : path) : bool :=
  match w p with Some _ => true | None => false end.

Definition is_file (w : world) (p : path) : bool :=
  match w p with Some (File _) => true | _ => false end.

Definition is_dir (w : world) (p : path) : bool :=
  match w p with Some (Dir _) => true | _ => false end.

Definition iterdir (w : world) (p : path) : option (list path) :=
  match w p with
  | Some (Dir es) => Some (map (fun e => (p ++ [e])%list) es)
  | _ => None
  end.

Definition read_bytes (w : world) (p : path) : option (list byte) :=
  match w p with
  | Some (File b) => Some b
  | _ => None
  end.

Definition resolve (w : world) (p : path) : path := p.

(** Register [e] in the listing of directory [d]. *)
Definition add_entry (w : world) (d : path) (e : string) : world :=
  match w d with
  | Some (Dir es) => update w d (Dir (es ++ [e]))
  | _ => w
  end.

Fixpoint mkdirs (w : world) (done : path) (todo : list string) : option world :=
  match todo with
  | [] => Some w
  | c :: t =>
      let d := (done ++ [c])%list in
      match w d with
      | Some (File _) => None
      | Some (Dir _) => mkdirs w d t
      | None => mkdirs (add_entry (update w d (Dir [])) done c) d t
      end
  end.

Definition mkdir_parents (w : world) (p : path) : option world :=
  match w [] with
  | Some (Dir _) => mkdirs w [] p
  | _ => None
  end.

Definition write_text (w : world) (p : path) (s : string) : option world :=
  match w p with
  | Some (Dir _) => None
  | Some (File _) => Some (update w p (File (list_byte_of_string s)))
  | None =>
      match p, w (parent p) with
      | _ :: _, Some (Dir _) =>
          Some (add_entry (update w p (File (list_byte_of_string s))) (parent p) (name p))
      | _, _ => None
      end
  end.

(** A small MIME database keyed by the lower-cased suffix. *)
Definition guess_type (w : world) (s : string) : option string :=
  let ext := lower (name_suffix (last (split_slash EmptyString s) EmptyString)) in
  if mem ext [".png"] then Some "image/png"
  else if mem ext [".jpg"; ".jpeg"] then Some "image/jpeg"
  else if mem ext [".gif"] then Some "image/gif"
  else if mem ext [".txt"] then Some "text/plain"
  else None.

#[export] Instance file_system : FileSystem path_ops :=
  Build_FileSystem path_ops world exists_ is_file is_dir iterdir read_bytes resolve
    mkdir_parents write_text guess_type.

(** A world given by a table of its nodes. *)
Fixpoint of_table (t : list (path * node)) : world :=
  match t with
  | [] => fun _ => None
  | (p, n) :: t' => update (of_table t') p n
  end.

End Ref.

(** ** Sample inputs on the reference implementation *)

Module Sample.
Import Ref.

(** [/o] holds two images, a text file, a hidden file and a name with a
    trailing dot; model [/m1] has one of the images under [allResult],
    model [/m2] has none. *)
Definition world0 : world := of_table
  [ ([], Dir ["o"; "m1"; "m2"]);
    (["o"], Dir ["b.png"; "a.JPG"; "notes.txt"; ".png"; "c.png."]);
    (["o"; "b.png"], File [x01; x02; x03; x04]);
    (["o"; "a.JPG"], File [xff]);
    (["o"; "notes.txt"], File []);
    (["o"; ".png"], File []);
    (["o"; "c.png."], File []);
    (["m1"], Dir ["allResult"]);
    (["m1"; "allResult"], Dir ["a.JPG"]);
    (["m1"; "allResult"; "a.JPG"], File [x4d; x61; x6e]);
    (["m2"], Dir []) ].

(** The same files, enumerated by [/o] in another order. *)
Definition world1 : world :=
  update world0 ["o"] (Dir [".png"; "a.JPG"; "c.png."; "notes.txt"; "b.png"]).

Definition org_dir : path := ["o"].
Definition two_models : list path := [["m1"]; ["m2"]].

Definition args_ok : Args :=
  {| org := ["o"]; models := [["m1"]; ["m2"]]; folders := None;
     out := ["site"; "gallery.html"]; title := "Model Comparison Matrix";
     max_height := 420 |}.

(** [--models] names a regular file. *)
Definition args_bad_model : Args :=
  {| org := ["o"]; models := [["m1"]; ["o"; "b.png"]]; folders := None;
     out := ["site"; "gallery.html"]; title := "Model Comparison Matrix";
     max_height := 420 |}.

(** [--out] names an existing directory. *)
Definition args_out_is_dir : Args :=
  {| org := ["o"]; models := [["m1"]; ["m2"]]; folders := None;
     out := ["m2"]; title := "Model Comparison Matrix";
     max_height := 420 |}.

End Sample.

(** * Theorems *)

(** ** Base64 round trip *)

Module Base64Facts.
Import Base64.

Lemma sextet_of_char_of_sextet (s : sextet) :
  sextet_of_char (char_of_sextet s) = Some s.
Proof.
  destruct s as [[[[[b5 b4] b3] b2] b1] b0].
  destruct b5, b4, b3, b2, b1, b0; vm_compute; reflexivity.
Qed.

Lemma char_of_sextet_not_pad (s : sextet) :
  Ascii.eqb (char_of_sextet s) pad = false.
Proof.
  destruct s as [[[[[b5 b4] b3] b2] b1] b0].
  destruct b5, b4, b3, b2, b1, b0; vm_compute; reflexivity.
Qed.

Ltac bits_of x E :=
  destruct (Byte.to_bits x) as (?b, (?b, (?b, (?b, (?b, (?b, (?b, ?b))))))) eqn:E.

Lemma bytes_of_sextets_of_bytes (x y z : byte) (a b c d : sextet) :
  sextets_of_bytes x y z = (a, b, c, d) ->
  bytes_of_sextets a b c d = (x, y, z).
Proof.
  unfold sextets_of_bytes.
  bits_of x Ex; bits_of y Ey; bits_of z Ez.
  intros H; inversion H; subst; clear H.
  unfold bytes_of_sextets.
  rewrite <- Ex, <- Ey, <- Ez, !Byte.of_bits_to_bits. reflexivity.
Qed.

(** The first byte only needs the first sextet and the top two bits of
    the second. *)
Lemma first_byte_of_sextets (x y z : byte) (a b c d c' d' : sextet) :
  sextets_of_bytes x y z = (a, b, c, d) ->
  fst (fst (bytes_of_sextets a b c' d')) = x.
Proof.
  unfold sextets_of_bytes.
  bits_of x Ex; bits_of y Ey; bits_of z Ez.
  intros H; inversion H; subst; clear H.
  destruct c' as [[[[[? ?] ?] ?] ?] ?], d' as [[[[[? ?] ?] ?] ?] ?].
  unfold bytes_of_sextets; cbn [fst snd].
  rewrite <- Ex. apply Byte.of_bits_to_bits.
Qed.

Lemma second_byte_of_sextets (x y z : byte) (a b c d d' : sextet) :
  sextets_of_bytes x y z = (a, b, c, d) ->
  snd (fst (bytes_of_sextets a b c d')) = y.
Proof.
  unfold sextets_of_bytes.
  bits_of x Ex; bits_of y Ey; bits_of z Ez.
  intros H; inversion H; subst; clear H.
  destruct d' as [[[[[? ?] ?] ?] ?] ?].
  unfold bytes_of_sextets; cbn [fst snd].
  rewrite <- Ey. apply Byte.of_bits_to_bits.
Qed.

Lemma list_ind3 (A : Type) (Q : list A -> Prop) :
  Q [] ->
  (forall x, Q [x]) ->
  (forall x y, Q [x; y]) ->
  (forall x y z l, Q l -> Q (x :: y :: z :: l)) ->
  forall l, Q l.
Proof.
  intros H0 H1 H2 H3.
  fix IH 1.
  intros [| x [| y [| z l]]];
    [exact H0 | apply H1 | apply H2 | apply H3; apply IH].
Qed.

Lemma b64decode_b64encode (bs : list byte) :
  b64decode (b64encode bs) = Some bs.
Proof.
  induction bs as [| x | x y | x y z l IH] using list_ind3.
  - reflexivity.
  - cbn [b64encode].
    destruct (sextets_of_bytes x zero zero) as [[[a b] c] d] eqn:E.
    cbn [b64decode].
    rewrite !sextet_of_char_of_sextet.
    change (Ascii.eqb pad pad) with true. cbv iota.
    pose proof (first_byte_of_sextets _ _ _ _ _ _ _ (index_sextet 0) (index_sextet 0) E) as F.
    destruct (bytes_of_sextets a b (index_sextet 0) (index_sextet 0)) as [[x' y'] z'].
    simpl in F. subst. reflexivity.
  - cbn [b64encode].
    destruct (sextets_of_bytes x y zero) as [[[a b] c] d] eqn:E.
    cbn [b64decode].
    rewrite !sextet_of_char_of_sextet.
    change (Ascii.eqb pad pad) with true. cbv iota.
    rewrite char_of_sextet_not_pad.
    pose proof (first_byte_of_sextets _ _ _ _ _ _ _ c (index_sextet 0) E) as F.
    pose proof (second_byte_of_sextets _ _ _ _ _ _ _ (index_sextet 0) E) as G.
    destruct (bytes_of_sextets a b c (index_sextet 0)) as [[x' y'] z'].
    simpl in F, G. subst. reflexivity.
  - cbn [b64encode].
    destruct (sextets_of_bytes x y z) as [[[a b] c] d] eqn:E.
    cbn [b64decode].
    rewrite !sextet_of_char_of_sextet, char_of_sextet_not_pad, IH.
    rewrite (bytes_of_sextets_of_bytes _ _ _ _ _ _ _ E). reflexivity.
Qed.

End Base64Facts.

(** ** Strings *)

Module StringFacts.

Lemma append_assoc (a b c : string) : (a ++ b) ++ c = a ++ (b ++ c).
Proof.
  induction a as [| x t IH]; simpl; [reflexivity | now rewrite IH].
Qed.

Lemma append_nil_r (a : string) : a ++ EmptyString = a.
Proof.
  induction a as [| x t IH]; simpl; [reflexivity | now rewrite IH].
Qed.

End StringFacts.

(** ** [sorted]: a sorted permutation, and the only one *)

Module SortFacts.

Lemma ltb_true_le (x y : string) : String.ltb x y = true -> str_le x y.
Proof.
  unfold String.ltb, str_le, String.leb.
  destruct (String.compare x y); congruence.
Qed.

Lemma ltb_false_le (x y : string) : String.ltb x y = false -> str_le y x.
Proof.
  unfold String.ltb, str_le, String.leb.
  rewrite (String.compare_antisym y x).
  destruct (String.compare x y); simpl; congruence.
Qed.

Lemma le_refl (x : string) : str_le x x.
Proof.
  unfold str_le, String.leb.
  pose proof (proj2 (String_as_OT.cmp_eq x x) eq_refl) as E.
  unfold String_as_OT.cmp in E. now rewrite E.
Qed.

Lemma le_trans (x y z : string) : str_le x y -> str_le y z -> str_le x z.
Proof.
  unfold str_le, String.leb.
  destruct (String.compare x y) eqn:Exy; try discriminate; intros _;
    destruct (String.compare y z) eqn:Eyz; try discriminate; intros _.
  - apply String_as_OT.cmp_eq in Exy, Eyz. subst. apply le_refl.
  - apply String_as_OT.cmp_eq in Exy. subst. now rewrite Eyz.
  - apply String_as_OT.cmp_eq in Eyz. subst. now rewrite Exy.
  - apply String_as_OT.cmp_lt in Exy, Eyz.
    pose proof (String_as_OT.lt_trans _ _ _ Exy Eyz) as L.
    apply String_as_OT.cmp_lt in L. unfold String_as_OT.cmp in L.
    now rewrite L.
Qed.

Lemma insert_sorted_perm (x : string) (l : list string) :
  Permutation (insert_sorted x l) (x :: l).
Proof.
  induction l as [| y t IH]; simpl.
  - apply Permutation_refl.
  - destruct (String.ltb x y).
    + apply Permutation_refl.
    + eapply perm_trans; [apply perm_skip, IH | apply perm_swap].
Qed.

Lemma sorted_perm (l : list string) : Permutation (sorted l) l.
Proof.
  induction l as [| x t IH]; simpl.
  - constructor.
  - eapply perm_trans; [apply insert_sorted_perm | now apply perm_skip].
Qed.

Lemma insert_sorted_strongly (x : string) (l : list string) :
  StronglySorted str_le l -> StronglySorted str_le (insert_sorted x l).
Proof.
  induction 1 as [| y t St IH Hy]; simpl.
  - repeat constructor.
  - destruct (String.ltb x y) eqn:E.
    + constructor; [now constructor |].
      constructor; [now apply ltb_true_le |].
      eapply Forall_impl; [| exact Hy].
      intros z Hz. eapply le_trans; [apply ltb_true_le, E | exact Hz].
    + constructor; [exact IH |].
      eapply Permutation_Forall;
        [apply Permutation_sym, insert_sorted_perm |].
      constructor; [now apply ltb_false_le | exact Hy].
Qed.

Lemma sorted_strongly (l : list string) : StronglySorted str_le (sorted l).
Proof.
  induction l as [| x t IH]; simpl.
  - constructor.
  - now apply insert_sorted_strongly.
Qed.

Lemma head_le_of_perm (x y : string) (l1 l2 : list string) :
  StronglySorted str_le (y :: l2) ->
  Permutation (x :: l1) (y :: l2) ->
  str_le y x.
Proof.
  intros S Hp.
  apply StronglySorted_inv in S. destruct S as [_ F].
  assert (In x (y :: l2)) as [-> | Hin]
    by (eapply Permutation_in; [exact Hp | now left]).
  - apply le_refl.
  - rewrite Forall_forall in F. now apply F.
Qed.

Lemma strongly_sorted_unique (l1 l2 : list string) :
  StronglySorted str_le l1 -> StronglySorted str_le l2 ->
  Permutation l1 l2 -> l1 = l2.
Proof.
  revert l2. induction l1 as [| x l1 IH]; intros [| y l2] S1 S2 Hp.
  - reflexivity.
  - now apply Permutation_nil in Hp.
  - now apply Permutation_sym, Permutation_nil in Hp.
  - assert (x = y) as ->.
    { apply String.leb_antisym.
      - eapply head_le_of_perm; [exact S1 | apply Permutation_sym, Hp].
      - eapply head_le_of_perm; [exact S2 | exact Hp]. }
    f_equal. apply IH.
    + now apply StronglySorted_inv in S1.
    + now apply StronglySorted_inv in S2.
    + eapply Permutation_cons_inv, Hp.
Qed.

Lemma sorted_canonical (l1 l2 : list string) :
  Permutation l1 l2 -> sorted l1 = sorted l2.
Proof.
  intros Hp. apply strongly_sorted_unique; try apply sorted_strongly.
  eapply perm_trans; [apply sorted_perm |].
  eapply perm_trans; [exact Hp | apply Permutation_sym, sorted_perm].
Qed.

End SortFacts.

(** ** [html.escape] leaves no markup delimiter *)

Module HtmlFacts.
Import Html.

Lemma replace_char_app (c : ascii) (r a b : string) :
  replace_char c r (a ++ b) = replace_char c r a ++ replace_char c r b.
Proof.
  induction a as [| x t IH]; simpl.
  - reflexivity.
  - destruct (Ascii.eqb x c); simpl; rewrite IH.
    + now rewrite StringFacts.append_assoc.
    + reflexivity.
Qed.

Lemma skeleton_app (a b : string) :
  skeleton (a ++ b) = skeleton a ++ skeleton b.
Proof.
  induction a as [| x t IH]; simpl.
  - reflexivity.
  - destruct (is_delim x); simpl; now rewrite IH.
Qed.

Lemma escape_cons (c : ascii) (t : string) :
  escape (String c t) = escape_char c ++ escape t.
Proof.
  unfold escape, escape_char.
  change (String c t) with (String c EmptyString ++ t).
  rewrite !replace_char_app.
  f_equal.
  destruct (Ascii.eqb_spec c "&") as [-> | N1]; [reflexivity |].
  destruct (Ascii.eqb_spec c "<") as [-> | N2]; [reflexivity |].
  destruct (Ascii.eqb_spec c ">") as [-> | N3]; [reflexivity |].
  destruct (Ascii.eqb_spec c dquote) as [-> | N4]; [reflexivity |].
  destruct (Ascii.eqb_spec c squote) as [-> | N5]; [reflexivity |].
  apply Ascii.eqb_neq in N1, N2, N3, N4, N5.
  cbn [replace_char]. rewrite N1. cbn [replace_char]. rewrite N2.
  cbn [replace_char]. rewrite N3. cbn [replace_char]. rewrite N4.
  cbn [replace_char]. rewrite N5. reflexivity.
Qed.

Lemma skeleton_escape_char (c : ascii) : skeleton (escape_char c) = EmptyString.
Proof.
  unfold escape_char.
  destruct (Ascii.eqb_spec c "&") as [-> | N1]; [reflexivity |].
  destruct (Ascii.eqb_spec c "<") as [-> | N2]; [reflexivity |].
  destruct (Ascii.eqb_spec c ">") as [-> | N3]; [reflexivity |].
  destruct (Ascii.eqb_spec c dquote) as [-> | N4]; [reflexivity |].
  destruct (Ascii.eqb_spec c squote) as [-> | N5]; [reflexivity |].
  apply Ascii.eqb_neq in N2, N3, N4, N5.
  cbn [skeleton]. unfold is_delim. now rewrite N2, N3, N4, N5.
Qed.

Lemma skeleton_escape (s : string) : skeleton (escape s) = EmptyString.
Proof.
  induction s as [| c t IH].
  - reflexivity.
  - now rewrite escape_cons, skeleton_app, skeleton_escape_char, IH.
Qed.

Lemma not_lt_of_not_delim (c : ascii) :
  is_delim c = false -> Ascii.eqb c "<" = false.
Proof.
  unfold is_delim. destruct (Ascii.eqb c "<"); [discriminate | reflexivity].
Qed.

(** An image tag cannot start inside a string without delimiters. *)
Lemma contains_img_skip (a b : string) :
  skeleton a = EmptyString ->
  contains "<img" (a ++ b) = contains "<img" b.
Proof.
  induction a as [| c t IH]; intros H.
  - reflexivity.
  - simpl in H. destruct (is_delim c) eqn:D; [discriminate |].
    apply not_lt_of_not_delim in D.
    change (String c t ++ b) with (String c (t ++ b)).
    cbn [contains String.prefix].
    destruct (ascii_dec "<" c) as [<- | _]; [discriminate |].
    simpl. now apply IH.
Qed.

End HtmlFacts.

(** ** Loops over [parts] *)

Section ForEach.

Context {A : Type} (body : A -> option (list string)).

Lemma for_each_cons_inv (x : A) (l : list A) (r : list string) :
  for_each body (x :: l) = Some r ->
  exists c r', body x = Some c /\ for_each body l = Some r' /\ r = (c ++ r')%list.
Proof.
  simpl. destruct (body x) as [c |]; [| discriminate].
  destruct (for_each body l) as [r' |]; [| discriminate].
  intros [= <-]. now exists c, r'.
Qed.

Lemma for_each_Forall2 (l : list A) (r : list string) :
  for_each body l = Some r ->
  exists rs, Forall2 (fun x c => body x = Some c) l rs /\ r = List.concat rs.
Proof.
  revert r. induction l as [| x l IH]; intros r H.
  - injection H as <-. exists []. split; constructor.
  - apply for_each_cons_inv in H. destruct H as (c & r' & Hc & Hr & ->).
    destruct (IH _ Hr) as (rs & F & ->).
    exists (c :: rs). split; [now constructor | reflexivity].
Qed.

Lemma for_each_length (n : nat) (l : list A) (r : list string) :
  (forall y c, body y = Some c -> List.length c = n) ->
  for_each body l = Some r ->
  List.length r = n * List.length l.
Proof.
  intros Hn. revert r. induction l as [| x l IH]; intros r H.
  - injection H as <-. simpl. lia.
  - apply for_each_cons_inv in H. destruct H as (c & r' & Hc & Hr & ->).
    rewrite length_app, (Hn _ _ Hc), (IH _ Hr). simpl. lia.
Qed.

(** The parts appended by the iteration on the [j]-th element. *)
Lemma for_each_nth (n : nat) (l : list A) (r : list string) (j : nat) (x : A) :
  (forall y c, body y = Some c -> List.length c = n) ->
  for_each body l = Some r ->
  nth_error l j = Some x ->
  exists pre c post,
    body x = Some c /\ r = (pre ++ c ++ post)%list /\ List.length pre = n * j.
Proof.
  intros Hn. revert r j. induction l as [| y l IH]; intros r j H Hj.
  - destruct j; discriminate.
  - apply for_each_cons_inv in H. destruct H as (c & r' & Hc & Hr & ->).
    destruct j as [| j]; simpl in Hj.
    + injection Hj as ->. exists [], c, r'. repeat split; auto; simpl; lia.
    + destruct (IH _ _ Hr Hj) as (pre & c' & post & Hc' & -> & Hl).
      exists (c ++ pre)%list, c', post. repeat split; auto.
      * now rewrite <- app_assoc.
      * rewrite length_app, (Hn _ _ Hc), Hl. lia.
Qed.

Lemma for_each_total (l : list A) :
  (forall x, In x l -> body x <> None) -> for_each body l <> None.
Proof.
  induction l as [| x l IH]; intros H; simpl.
  - discriminate.
  - destruct (body x) eqn:E; [| exfalso; now apply (H x); [left |]].
    destruct (for_each body l) eqn:E'; [discriminate |].
    exfalso. apply IH; [| reflexivity]. intros y Hy. apply H. now right.
Qed.

End ForEach.

Lemma Forall2_concat_split {A : Type} (R : A -> list string -> Prop)
  (l : list A) (rs : list (list string)) :
  Forall2 R l rs ->
  forall x, In x l ->
  exists r pre post, R x r /\ List.concat rs = (pre ++ r ++ post)%list.
Proof.
  induction 1 as [| y r l' rs' Hr F IH]; intros x Hin.
  - destruct Hin.
  - destruct Hin as [-> | Hin].
    + exists r, [], (List.concat rs'). split; [exact Hr | reflexivity].
    + destruct (IH x Hin) as (r' & pre & post & Hr' & Heq).
      exists r', (r ++ pre)%list, post. split; [exact Hr' |].
      simpl. rewrite Heq, <- app_assoc. reflexivity.
Qed.

Lemma nth_error_combine_map {A B : Type} (f : A -> B) (l : list A)
  (i : nat) (x : A) :
  nth_error l i = Some x ->
  nth_error (combine l (map f l)) i = Some (x, f x).
Proof.
  revert i. induction l as [| y l IH]; intros [| i] H; try discriminate.
  - now injection H as ->.
  - simpl in *. now apply IH.
Qed.

Lemma for_each_ext {A : Type} (f g : A -> option (list string)) (l : list A) :
  (forall x, In x l -> f x = g x) -> for_each f l = for_each g l.
Proof.
  induction l as [| x l IH]; intros H; simpl.
  - reflexivity.
  - rewrite (H x) by now left.
    rewrite IH by (intros y Hy; apply H; now right). reflexivity.
Qed.

(** ** The shape of a rendered section *)

Section Gallery.

Context {P : PathOps} {FS : FileSystem P}.

Local Open Scope path_scope.

Lemma model_cell_inv (w : World) (m : Path) (label fname sub : string)
  (c : list string) :
  model_cell w m label fname sub = Some c ->
  exists content,
    c = [CELL_OPEN; label_div label sub; content; "</div>"]
    /\ (exists_ w (m </> sub </> fname) = true ->
        exists uri, encode_data_uri w (m </> sub </> fname) = Some uri
                    /\ content = img_tag uri (model_alt label sub fname))
    /\ (exists_ w (m </> sub </> fname) = false -> content = MISSING).
Proof.
  unfold model_cell.
  destruct (exists_ w (m </> sub </> fname)) eqn:E.
  - destruct (encode_data_uri w (m </> sub </> fname)) as [uri |] eqn:U;
      [| discriminate].
    intros [= <-]. eexists. split; [reflexivity |]. split.
    + intros _. now exists uri.
    + discriminate.
  - intros [= <-]. eexists. split; [reflexivity |]. split.
    + discriminate.
    + reflexivity.
Qed.

Lemma label_div_no_img (label sub : string) :
  contains "<img" (label_div label sub) = false.
Proof.
  unfold label_div.
  pose proof (HtmlFacts.skeleton_escape label) as K1.
  pose proof (HtmlFacts.skeleton_escape sub) as K2.
  revert K1 K2.
  generalize (Html.escape label) as e1, (Html.escape sub) as e2.
  intros e1 e2 K1 K2.
  simpl.
  rewrite (HtmlFacts.contains_img_skip _ _ K1). simpl.
  rewrite (HtmlFacts.contains_img_skip _ _ K2). reflexivity.
Qed.

Lemma model_cell_length (w : World) (m : Path) (label fname sub : string)
  (c : list string) :
  model_cell w m label fname sub = Some c -> List.length c = 4.
Proof.
  intros H. apply model_cell_inv in H. destruct H as (content & -> & _).
  reflexivity.
Qed.

Lemma other_row_inv (w : World) (subfolders : list string) (fname : string)
  (m : Path) (label : string) (row : list string) :
  other_row w subfolders fname (m, label) = Some row ->
  exists cells,
    for_each (model_cell w m label fname) subfolders = Some cells
    /\ row = PLACEHOLDER :: cells.
Proof.
  unfold other_row.
  destruct (for_each (model_cell w m label fname) subfolders) as [cells |];
    [| discriminate].
  intros [= <-]. now exists cells.
Qed.

Lemma other_row_length (w : World) (subfolders : list string) (fname : string)
  (ml : Path * string) (row : list string) :
  other_row w subfolders fname ml = Some row ->
  List.length row = 1 + 4 * List.length subfolders.
Proof.
  destruct ml as [m label]. intros H.
  apply other_row_inv in H. destruct H as (cells & Hc & ->).
  cbn [List.length].
  rewrite (for_each_length _ 4 _ _ (fun y c => model_cell_length w m label fname y c) Hc).
  reflexivity.
Qed.

Lemma org_cell_inv (w : World) (org_dir : Path) (fname : string)
  (o : list string) :
  org_cell w org_dir fname = Some o ->
  (exists_ w (org_dir </> fname) = true ->
     exists uri, encode_data_uri w (org_dir </> fname) = Some uri
       /\ o = [CELL_OPEN; "<div class='label'>org_img</div>";
               img_tag uri ("org:" ++ Html.escape fname); "</div>"])
  /\ (exists_ w (org_dir </> fname) = false -> o = [ORIGINAL_MISSING]).
Proof.
  unfold org_cell.
  destruct (exists_ w (org_dir </> fname)) eqn:E.
  - destruct (encode_data_uri w (org_dir </> fname)) as [uri |]; [| discriminate].
    intros [= <-]. split; [| discriminate]. intros _. now exists uri.
  - intros [= <-]. split; [discriminate | reflexivity].
Qed.

Lemma org_cell_length (w : World) (org_dir : Path) (fname : string)
  (o : list string) :
  org_cell w org_dir fname = Some o ->
  List.length o = org_cell_size w org_dir fname.
Proof.
  intros H. apply org_cell_inv in H. destruct H as [Ht Hf].
  unfold org_cell_size.
  destruct (exists_ w (org_dir </> fname)).
  - destruct (Ht eq_refl) as (uri & _ & ->). reflexivity.
  - now rewrite (Hf eq_refl).
Qed.

Lemma section_inv (w : World) (org_dir : Path) (models : list Path)
  (model_labels : list string) (subfolders : list string) (fname : string)
  (sec : list string) :
  section w org_dir models model_labels subfolders fname = Some sec ->
  exists o row1 rows,
    org_cell w org_dir fname = Some o
    /\ first_row w models model_labels subfolders fname = Some row1
    /\ for_each (other_row w subfolders fname)
         (combine (tl models) (tl model_labels)) = Some rows
    /\ sec = (section_open fname ++ map hdr_div subfolders
              ++ o ++ row1 ++ rows ++ ["</div>"; "</section>"])%list.
Proof.
  unfold section.
  destruct (org_cell w org_dir fname) as [o |]; [| discriminate].
  destruct (first_row w models model_labels subfolders fname) as [row1 |];
    [| discriminate].
  destruct (for_each _ _) as [rows |]; [| discriminate].
  intros [= <-]. now exists o, row1, rows.
Qed.

Lemma build_parts_inv (w : World) (org_dir : Path) (models : list Path)
  (subfolders : list string) (title : string) (max_height : Z)
  (parts : list string) :
  build_parts w org_dir models subfolders title max_height = Some parts ->
  exists org_files secs,
    list_org_files w org_dir = Some org_files
    /\ Forall2 (fun fname sec =>
                  section w org_dir models (map name models) subfolders fname
                  = Some sec) org_files secs
    /\ parts = (head_parts org_dir models subfolders title max_height
                ++ List.concat secs ++ ["</div></body></html>"])%list.
Proof.
  unfold build_parts.
  destruct (list_org_files w org_dir) as [org_files |]; [| discriminate].
  destruct (for_each _ org_files) as [sections |] eqn:E; [| discriminate].
  intros [= <-].
  apply for_each_Forall2 in E. destruct E as (secs & F & ->).
  now exists org_files, secs.
Qed.

(** Every reference filename has its section in the document. *)
Lemma build_parts_section (w : World) (org_dir : Path) (models : list Path)
  (subfolders : list string) (title : string) (max_height : Z)
  (parts org_files : list string) (fname : string) :
  build_parts w org_dir models subfolders title max_height = Some parts ->
  list_org_files w org_dir = Some org_files ->
  In fname org_files ->
  exists sec before after,
    section w org_dir models (map name models) subfolders fname = Some sec
    /\ parts = (before ++ sec ++ after)%list.
Proof.
  intros Hb Hl Hin.
  apply build_parts_inv in Hb.
  destruct Hb as (fs & secs & Hl' & F & ->).
  rewrite Hl in Hl'. injection Hl' as <-.
  destruct (Forall2_concat_split _ _ _ F _ Hin) as (sec & pre & post & Hs & Heq).
  exists sec, (head_parts org_dir models subfolders title max_height ++ pre)%list,
    (post ++ ["</div></body></html>"])%list.
  split; [exact Hs |].
  rewrite Heq, <- !app_assoc. reflexivity.
Qed.

Lemma first_row_cons_inv (w : World) (m0 : Path) (ms : list Path)
  (subfolders : list string) (fname : string) (row1 : list string) :
  first_row w (m0 :: ms) (map name (m0 :: ms)) subfolders fname = Some row1 ->
  for_each (model_cell w m0 (name m0) fname) subfolders = Some row1.
Proof.
  unfold first_row. simpl. auto.
Qed.

(** The cell of model [i] and subfolder [j] lies at its offset. *)
Lemma section_model_cell (w : World) (org_dir : Path) (models : list Path)
  (subfolders : list string) (fname : string) (sec : list string)
  (i j : nat) (m : Path) (sub : string) :
  section w org_dir models (map name models) subfolders fname = Some sec ->
  nth_error models i = Some m ->
  nth_error subfolders j = Some sub ->
  exists pre cell post,
    model_cell w m (name m) fname sub = Some cell
    /\ sec = (pre ++ cell ++ post)%list
    /\ List.length pre = model_cell_offset w org_dir subfolders fname i j.
Proof.
  intros Hs Hi Hj.
  apply section_inv in Hs.
  destruct Hs as (o & row1 & rows & Ho & H1 & Hr & ->).
  pose proof (org_cell_length _ _ _ _ Ho) as Lo.
  destruct models as [| m0 ms]; [destruct i; discriminate |].
  apply first_row_cons_inv in H1.
  pose proof (for_each_length _ 4 _ _
    (fun y c => model_cell_length w m0 (name m0) fname y c) H1) as L1.
  unfold model_cell_offset, org_cell_offset.
  destruct i as [| i'].
  - injection Hi as <-.
    destruct (for_each_nth _ 4 _ _ _ _
      (fun y c => model_cell_length w m0 (name m0) fname y c) H1 Hj)
      as (pre1 & cell & post1 & Hc & -> & Lp).
    exists (section_open fname ++ map hdr_div subfolders ++ o ++ pre1)%list,
      cell, (post1 ++ rows ++ ["</div>"; "</section>"])%list.
    split; [exact Hc |]. split.
    + rewrite <- !app_assoc. reflexivity.
    + rewrite !length_app, length_map, Lo, Lp. simpl. lia.
  - simpl in Hi, Hr.
    pose proof (nth_error_combine_map name ms i' m Hi) as Hi'.
    destruct (for_each_nth _ (1 + 4 * List.length subfolders) _ _ _ _
      (fun y c => other_row_length w subfolders fname y c) Hr Hi')
      as (pre1 & row & post1 & Hrow & -> & Lp1).
    apply other_row_inv in Hrow. destruct Hrow as (cells & Hcells & ->).
    destruct (for_each_nth _ 4 _ _ _ _
      (fun y c => model_cell_length w m (name m) fname y c) Hcells Hj)
      as (pre2 & cell & post2 & Hc & -> & Lp2).
    exists (section_open fname ++ map hdr_div subfolders ++ o ++ row1
            ++ pre1 ++ PLACEHOLDER :: pre2)%list,
      cell, (post2 ++ post1 ++ ["</div>"; "</section>"])%list.
    split; [exact Hc |]. split.
    + rewrite <- !app_assoc. simpl. rewrite <- !app_assoc. reflexivity.
    + rewrite !length_app, length_map, Lo, L1, Lp1. simpl.
      rewrite Lp2. lia.
Qed.

Lemma build_html_inv (w : World) (org_dir : Path) (models : list Path)
  (subfolders : list string) (title : string) (max_height : Z)
  (html : string) :
  build_html w org_dir models subfolders title max_height = Some html ->
  exists parts,
    build_parts w org_dir models subfolders title max_height = Some parts
    /\ html = String.concat nl parts.
Proof.
  unfold build_html.
  destruct (build_parts _ _ _ _ _ _) as [parts |]; [| discriminate].
  intros [= <-]. now exists parts.
Qed.


End Gallery.


(** ** Discovery and encoding *)

Lemma filter_partition_length {A : Type} (f : A -> bool) (l : list A) :
  List.length (filter f l) + List.length (filter (fun x => negb (f x)) l)
  = List.length l.
Proof.
  induction l as [| x l IH]; simpl; [reflexivity |].
  destruct (f x); simpl; lia.
Qed.

Lemma filter_perm {A : Type} (f : A -> bool) (l1 l2 : list A) :
  Permutation l1 l2 -> Permutation (filter f l1) (filter f l2).
Proof.
  induction 1 as [| x l1 l2 Hp IH | x y l | l1 l2 l3 H12 IH12 H23 IH23]; simpl.
  - constructor.
  - destruct (f x); [now constructor | exact IH].
  - destruct (f x), (f y); try apply Permutation_refl. apply perm_swap.
  - eapply perm_trans; eassumption.
Qed.

Lemma dict_get_default (d : list (string * string)) (k default : string) :
  mem k (map fst d) = false -> dict_get d k default = default.
Proof.
  unfold mem. induction d as [| [k' v] d IH]; simpl; [reflexivity |].
  destruct (String.eqb k k'); [discriminate | exact IH].
Qed.

Lemma dict_get_in (d : list (string * string)) (k default : string) :
  mem k (map fst d) = true -> In (k, dict_get d k default) d.
Proof.
  unfold mem. induction d as [| [k' v] d IH]; simpl; [discriminate |].
  destruct (String.eqb_spec k k') as [-> | N]; simpl.
  - intros _. now left.
  - intros H. right. now apply IH.
Qed.

Section Discovery.

Context {P : PathOps} {FS : FileSystem P}.

Local Open Scope path_scope.

(** C3. A readable file is encoded as [data:<mime>;base64,<payload>]:
    the payload decodes back to the bytes of the file, and the MIME type
    is the one the database gives for the path, else the one the table
    gives for the lower-cased suffix, else [application/octet-stream]. *)
Theorem encode_data_uri_round_trip (w : World) (path : Path) (b : list byte) :
  read_bytes w path = Some b ->
  exists mime payload,
    encode_data_uri w path = Some ("data:" ++ mime ++ ";base64," ++ payload)
    /\ mime = guess_mime w path
    /\ payload = Base64.b64encode b
    /\ Base64.b64decode payload = Some b
    /\ (forall c t, guess_type w (str path) = Some (String c t) ->
        mime = String c t)
    /\ (guess_type w (str path) = None
        \/ guess_type w (str path) = Some EmptyString ->
        (mem (lower (suffix path)) (map fst MIME_TABLE) = true ->
         In (lower (suffix path), mime) MIME_TABLE)
        /\ (mem (lower (suffix path)) (map fst MIME_TABLE) = false ->
            mime = "application/octet-stream")).
Proof.
  intros Hr.
  exists (guess_mime w path), (Base64.b64encode b).
  unfold encode_data_uri. rewrite Hr.
  split; [reflexivity |]. split; [reflexivity |]. split; [reflexivity |].
  split; [apply Base64Facts.b64decode_b64encode |].
  unfold guess_mime. split.
  - intros c t ->. reflexivity.
  - intros [-> | ->]; split; intros H;
      first [now apply dict_get_in | now apply dict_get_default].
Qed.

(** C2. Discovery returns the names of the entries that are files with
    a recognized extension (compared after lower-casing), each once,
    sorted; the other entries are left out; and the sections of the
    document follow this sequence. *)
Theorem list_org_files_sorted_images (w : World) (org_dir : Path)
  (ps : list Path) :
  iterdir w org_dir = Some ps ->
  exists org_files,
    list_org_files w org_dir = Some org_files
    /\ Permutation org_files (map name (filter (is_image w) ps))
    /\ StronglySorted str_le org_files
    /\ List.length org_files = List.length (filter (is_image w) ps)
    /\ List.length org_files
       + List.length (filter (fun p => negb (is_image w p)) ps)
       = List.length ps
    /\ (forall p, In p ps ->
        is_image w p = is_file w p && mem (lower (suffix p)) IMAGE_EXTS)
    /\ (forall models subfolders title max_height html,
        build_html w org_dir models subfolders title max_height = Some html ->
        exists secs,
          Forall2 (fun fname sec =>
                     section w org_dir models (map name models) subfolders fname
                     = Some sec) org_files secs
          /\ html = String.concat nl
                      (head_parts org_dir models subfolders title max_height
                       ++ List.concat secs ++ ["</div></body></html>"])%list).
Proof.
  intros Hi.
  exists (sorted (map name (filter (is_image w) ps))).
  assert (Hl : list_org_files w org_dir
               = Some (sorted (map name (filter (is_image w) ps)))).
  { unfold list_org_files. now rewrite Hi. }
  split; [exact Hl |].
  split; [apply SortFacts.sorted_perm |].
  split; [apply SortFacts.sorted_strongly |].
  assert (Hn : List.length (sorted (map name (filter (is_image w) ps)))
               = List.length (filter (is_image w) ps)).
  { rewrite (Permutation_length (SortFacts.sorted_perm _)).
    apply length_map. }
  split; [exact Hn |].
  split; [rewrite Hn; apply filter_partition_length |].
  split; [reflexivity |].
  intros models subfolders title max_height html Hh.
  apply build_html_inv in Hh. destruct Hh as (parts & Hb & ->).
  apply build_parts_inv in Hb. destruct Hb as (fs & secs & Hl' & F & ->).
  rewrite Hl in Hl'. injection Hl' as <-.
  now exists secs.
Qed.

End Discovery.

Lemma encode_data_uri_round_trip_witness :
  exists mime payload,
    read_bytes (FileSystem := Ref.file_system) Sample.world0 ["o"; "b.png"]
      = Some [x01; x02; x03; x04]
    /\ encode_data_uri (FS := Ref.file_system) Sample.world0 ["o"; "b.png"]
       = Some ("data:" ++ mime ++ ";base64," ++ payload)
    /\ mime = "image/png"
    /\ payload = "AQIDBA=="
    /\ Base64.b64decode payload = Some [x01; x02; x03; x04].
Proof.
  destruct (encode_data_uri_round_trip (FS := Ref.file_system) Sample.world0
              ["o"; "b.png"] [x01; x02; x03; x04] eq_refl)
    as (mime & payload & H1 & H2 & H3 & H4 & _).
  exists mime, payload.
  split; [reflexivity |]. split; [exact H1 |].
  split; [rewrite H2; reflexivity |].
  split; [rewrite H3; reflexivity | exact H4].
Defined.

Lemma list_org_files_sorted_images_witness :
  exists org_files,
    iterdir (FileSystem := Ref.file_system) Sample.world0 Sample.org_dir
      = Some [["o"; "b.png"]; ["o"; "a.JPG"]; ["o"; "notes.txt"];
              ["o"; ".png"]; ["o"; "c.png."]]
    /\ list_org_files (FS := Ref.file_system) Sample.world0 Sample.org_dir
       = Some org_files
    /\ org_files = ["a.JPG"; "b.png"]
    /\ StronglySorted str_le org_files.
Proof.
  destruct (list_org_files_sorted_images (FS := Ref.file_system) Sample.world0
              Sample.org_dir _ eq_refl)
    as (org_files & H1 & _ & H3 & _).
  exists org_files.
  split; [reflexivity |]. split; [exact H1 |]. split; [| exact H3].
  vm_compute in H1. now injection H1 as <-.
Defined.

(** ** The grid of a section: header row and cell rows *)

Lemma filter_all {A : Type} (f : A -> bool) (l : list A) :
  (forall x, In x l -> f x = true) -> filter f l = l.
Proof.
  induction l as [| x l IH]; intros H; simpl; [reflexivity |].
  rewrite (H x) by now left.
  f_equal. apply IH. intros y Hy. apply H. now right.
Qed.

Lemma filter_none {A : Type} (f : A -> bool) (l : list A) :
  (forall x, In x l -> f x = false) -> filter f l = [].
Proof.
  induction l as [| x l IH]; intros H; simpl; [reflexivity |].
  rewrite (H x) by now left.
  apply IH. intros y Hy. apply H. now right.
Qed.

Lemma filter_concat_map {A B : Type} (f : B -> bool) (g : A -> list B)
  (l : list A) :
  filter f (List.concat (map g l)) = List.concat (map (fun x => filter f (g x)) l).
Proof.
  induction l as [| x l IH]; simpl; [reflexivity |].
  now rewrite filter_app, IH.
Qed.

(** Rows of [n] items each are recovered from their concatenation. *)
Lemma chunks_fuel_concat (n : nat) (rows : list (list string)) (fuel : nat) :
  0 < n ->
  Forall (fun r => List.length r = n) rows ->
  List.length rows <= fuel ->
  chunks_fuel fuel n (List.concat rows) = rows.
Proof.
  intros Hn F. revert fuel.
  induction F as [| r rows Hr F IH]; intros fuel Hf.
  - destruct fuel; reflexivity.
  - destruct fuel as [| fuel]; [simpl in Hf; lia |].
    simpl List.concat.
    destruct r as [| x r]; [simpl in Hr; lia |].
    change ((x :: r) ++ List.concat rows)%list
      with (x :: (r ++ List.concat rows))%list.
    cbn [chunks_fuel].
    change (x :: (r ++ List.concat rows))%list
      with ((x :: r) ++ List.concat rows)%list.
    subst n.
    rewrite firstn_app, firstn_all, Nat.sub_diag, firstn_O, app_nil_r.
    rewrite skipn_app, skipn_all, Nat.sub_diag, skipn_O. simpl app at 1.
    f_equal. apply IH. simpl in Hf. lia.
Qed.

Lemma grid_rows_concat (n : nat) (rows : list (list string)) :
  0 < n ->
  Forall (fun r => List.length r = n) rows ->
  grid_rows n (List.concat rows) = rows.
Proof.
  intros Hn F. unfold grid_rows.
  apply chunks_fuel_concat; auto.
  rewrite length_concat.
  clear - Hn F. induction F as [| r rows Hr F IH]; simpl; [lia |].
  rewrite Hr. lia.
Qed.

Section Grid.

Context {P : PathOps} {FS : FileSystem P}.

Local Open Scope path_scope.

Lemma grid_items_model_cell (w : World) (m : Path) (label fname sub : string)
  (c : list string) :
  model_cell w m label fname sub = Some c -> grid_items c = [CELL_OPEN].
Proof.
  intros H. apply model_cell_inv in H. destruct H as (content & -> & Ht & Hf).
  destruct (exists_ w (m </> sub </> fname)).
  - destruct (Ht eq_refl) as (uri & _ & ->). reflexivity.
  - rewrite (Hf eq_refl). reflexivity.
Qed.

Lemma grid_items_model_cells (w : World) (m : Path) (label fname : string)
  (subfolders : list string) (cells : list string) :
  for_each (model_cell w m label fname) subfolders = Some cells ->
  grid_items cells = repeat CELL_OPEN (List.length subfolders).
Proof.
  revert cells. induction subfolders as [| sub subs IH]; intros cells H.
  - now injection H as <-.
  - apply for_each_cons_inv in H. destruct H as (c & r & Hc & Hr & ->).
    unfold grid_items in *. rewrite filter_app.
    fold (grid_items c). rewrite (grid_items_model_cell _ _ _ _ _ _ Hc).
    rewrite (IH _ Hr). reflexivity.
Qed.

Lemma grid_items_other_rows (w : World) (subfolders : list string)
  (fname : string) (mls : list (Path * string)) (rows : list string) :
  for_each (other_row w subfolders fname) mls = Some rows ->
  grid_items rows
  = List.concat
      (map (fun _ => PLACEHOLDER :: repeat CELL_OPEN (List.length subfolders))
           mls).
Proof.
  revert rows. induction mls as [| [m label] mls IH]; intros rows H.
  - now injection H as <-.
  - apply for_each_cons_inv in H. destruct H as (row & r & Hrow & Hr & ->).
    apply other_row_inv in Hrow. destruct Hrow as (cells & Hc & ->).
    unfold grid_items in *. rewrite filter_app. rewrite (IH _ Hr).
    cbn [filter map List.concat].
    change (is_grid_item PLACEHOLDER) with true. cbv iota.
    fold (grid_items cells). rewrite (grid_items_model_cells _ _ _ _ _ _ Hc).
    reflexivity.
Qed.

Lemma grid_items_org_cell (w : World) (org_dir : Path) (fname : string)
  (o : list string) :
  org_cell w org_dir fname = Some o ->
  grid_items o = [org_item w org_dir fname].
Proof.
  intros H. apply org_cell_inv in H. destruct H as [Ht Hf].
  unfold org_item. destruct (exists_ w (org_dir </> fname)).
  - destruct (Ht eq_refl) as (uri & _ & ->). reflexivity.
  - rewrite (Hf eq_refl). reflexivity.
Qed.

Lemma grid_items_first_row (w : World) (models : list Path)
  (subfolders : list string) (fname : string) (row1 : list string) :
  first_row w models (map name models) subfolders fname = Some row1 ->
  grid_items row1 = repeat (first_row_item models) (List.length subfolders).
Proof.
  destruct models as [| m0 ms].
  - simpl. intros [= <-].
    unfold grid_items. rewrite filter_all.
    + clear. induction subfolders; simpl; congruence.
    + intros x Hx. apply in_map_iff in Hx. destruct Hx as (? & <- & _).
      reflexivity.
  - intros H. apply first_row_cons_inv in H.
    now apply grid_items_model_cells in H.
Qed.

Lemma grid_items_hdrs (subfolders : list string) :
  grid_items (map hdr_div subfolders) = map hdr_div subfolders.
Proof.
  apply filter_all. intros x Hx.
  apply in_map_iff in Hx. destruct Hx as (s & <- & _). reflexivity.
Qed.

Lemma map_const_combine (ms : list Path) (c : list string) :
  map (fun _ : Path * string => c) (combine ms (map name ms))
  = map (fun _ : Path => c) ms.
Proof.
  induction ms as [| m ms IH]; simpl; [reflexivity | now rewrite IH].
Qed.

(** The children of the grid: the header row, then the cell rows. *)
Lemma grid_items_section (w : World) (org_dir : Path) (models : list Path)
  (subfolders : list string) (fname : string) (sec : list string) :
  section w org_dir models (map name models) subfolders fname = Some sec ->
  grid_items sec
  = (hdr_row subfolders
     ++ List.concat (cell_rows w org_dir models subfolders fname))%list.
Proof.
  intros H. apply section_inv in H.
  destruct H as (o & row1 & rows & Ho & H1 & Hr & ->).
  unfold grid_items. rewrite !filter_app.
  fold (grid_items (map hdr_div subfolders)) (grid_items o)
       (grid_items row1) (grid_items rows).
  rewrite grid_items_hdrs, (grid_items_org_cell _ _ _ _ Ho),
    (grid_items_first_row _ _ _ _ _ H1), (grid_items_other_rows _ _ _ _ _ Hr).
  replace (combine (tl models) (tl (map name models)))
    with (combine (tl models) (map name (tl models)))
    by (destruct models; reflexivity).
  rewrite map_const_combine.
  unfold hdr_row, cell_rows.
  cbn [List.concat].
  change (filter is_grid_item (section_open fname))
    with ["<div class='hdr'></div>"].
  change (filter is_grid_item ["</div>"; "</section>"]) with (@nil string).
  rewrite app_nil_r. reflexivity.
Qed.

End Grid.

Section Rows.

Context {P : PathOps} {FS : FileSystem P}.

Local Open Scope path_scope.

Lemma is_cell_org_item (w : World) (org_dir : Path) (fname : string) :
  is_cell (org_item w org_dir fname) = true.
Proof.
  unfold org_item. now destruct (exists_ w (org_dir </> fname)).
Qed.

Lemma is_cell_first_row_item (models : list Path) :
  is_cell (first_row_item models) = true.
Proof.
  now destruct models.
Qed.

Lemma cell_rows_all_cells (w : World) (org_dir : Path) (models : list Path)
  (subfolders : list string) (fname : string) (x : string) :
  In x (List.concat (cell_rows w org_dir models subfolders fname)) ->
  is_cell x = true.
Proof.
  unfold cell_rows. cbn [List.concat]. intros H.
  apply in_app_or in H. destruct H as [[<- | H] | H].
  - apply is_cell_org_item.
  - apply repeat_spec in H. subst. apply is_cell_first_row_item.
  - apply in_concat in H. destruct H as (row & Hrow & Hx).
    apply in_map_iff in Hrow. destruct Hrow as (m & <- & _).
    destruct Hx as [<- | Hx]; [reflexivity |].
    apply repeat_spec in Hx. now subst.
Qed.

Lemma hdr_row_no_cell (subfolders : list string) :
  filter is_cell (hdr_row subfolders) = [].
Proof.
  apply filter_none. intros x [<- | Hx]; [reflexivity |].
  apply in_map_iff in Hx. destruct Hx as (s & <- & _). reflexivity.
Qed.

Lemma hdr_row_all_hdr (subfolders : list string) :
  filter is_hdr (hdr_row subfolders) = hdr_row subfolders.
Proof.
  apply filter_all. intros x [<- | Hx]; [reflexivity |].
  apply in_map_iff in Hx. destruct Hx as (s & <- & _). reflexivity.
Qed.

Lemma filter_filter_weaker {A : Type} (f g : A -> bool) (l : list A) :
  (forall x, f x = true -> g x = true) ->
  filter f (filter g l) = filter f l.
Proof.
  intros H. induction l as [| x l IH]; simpl; [reflexivity |].
  destruct (g x) eqn:G; simpl.
  - now rewrite IH.
  - destruct (f x) eqn:F; [| exact IH].
    rewrite (H x F) in G. discriminate.
Qed.

Lemma cell_items_section (w : World) (org_dir : Path) (models : list Path)
  (subfolders : list string) (fname : string) (sec : list string) :
  section w org_dir models (map name models) subfolders fname = Some sec ->
  cell_items sec = List.concat (cell_rows w org_dir models subfolders fname).
Proof.
  intros H. apply grid_items_section in H.
  unfold cell_items.
  rewrite <- (filter_filter_weaker is_cell is_grid_item).
  - fold (grid_items sec). rewrite H, filter_app, hdr_row_no_cell.
    apply filter_all, cell_rows_all_cells.
  - intros x Hx. unfold is_grid_item. rewrite Hx. apply orb_true_r.
Qed.

Lemma hdr_items_section (w : World) (org_dir : Path) (models : list Path)
  (subfolders : list string) (fname : string) (sec : list string) :
  section w org_dir models (map name models) subfolders fname = Some sec ->
  filter is_hdr sec = hdr_row subfolders.
Proof.
  intros H. apply grid_items_section in H.
  rewrite <- (filter_filter_weaker is_hdr is_grid_item).
  - fold (grid_items sec). rewrite H, filter_app, hdr_row_all_hdr.
    rewrite filter_none; [apply app_nil_r |].
    intros x Hx. unfold cell_rows in Hx. cbn [List.concat] in Hx.
    apply in_app_or in Hx. destruct Hx as [[<- | Hx] | Hx].
    + unfold org_item. now destruct (exists_ w (org_dir </> fname)).
    + apply repeat_spec in Hx. subst. now destruct models.
    + apply in_concat in Hx. destruct Hx as (row & Hrow & Hx).
      apply in_map_iff in Hrow. destruct Hrow as (m & <- & _).
      destruct Hx as [<- | Hx]; [reflexivity |].
      apply repeat_spec in Hx. now subst.
  - intros x Hx. unfold is_grid_item. now rewrite Hx.
Qed.

Lemma cell_rows_cols (w : World) (org_dir : Path) (models : list Path)
  (subfolders : list string) (fname : string) :
  Forall (fun row => List.length row = cols subfolders)
    (cell_rows w org_dir models subfolders fname).
Proof.
  unfold cell_rows, cols. constructor.
  - simpl. now rewrite repeat_length.
  - apply Forall_forall. intros row Hrow.
    apply in_map_iff in Hrow. destruct Hrow as (m & <- & _).
    simpl. now rewrite repeat_length.
Qed.

Lemma cell_rows_length (w : World) (org_dir : Path) (models : list Path)
  (subfolders : list string) (fname : string) :
  List.length (cell_rows w org_dir models subfolders fname)
  = Nat.max 1 (List.length models).
Proof.
  unfold cell_rows. cbn [List.length]. rewrite length_map.
  destruct models as [| m ms]; simpl; [reflexivity |].
  destruct ms; simpl; reflexivity.
Qed.

Lemma grid_rows_section (w : World) (org_dir : Path) (models : list Path)
  (subfolders : list string) (fname : string) (sec : list string) :
  section w org_dir models (map name models) subfolders fname = Some sec ->
  grid_rows (cols subfolders) (cell_items sec)
  = cell_rows w org_dir models subfolders fname.
Proof.
  intros H. rewrite (cell_items_section _ _ _ _ _ _ H).
  apply grid_rows_concat; [unfold cols; lia | apply cell_rows_cols].
Qed.

Lemma build_html_section (w : World) (org_dir : Path) (models : list Path)
  (subfolders : list string) (title : string) (max_height : Z)
  (html : string) :
  build_html w org_dir models subfolders title max_height = Some html ->
  exists parts org_files,
    html = String.concat nl parts
    /\ list_org_files w org_dir = Some org_files
    /\ In (css subfolders max_height) parts
    /\ forall fname, In fname org_files ->
       exists sec before after,
         parts = (before ++ sec ++ after)%list
         /\ section w org_dir models (map name models) subfolders fname
            = Some sec.
Proof.
  intros Hh. apply build_html_inv in Hh. destruct Hh as (parts & Hb & ->).
  pose proof Hb as Hb'.
  apply build_parts_inv in Hb'. destruct Hb' as (fs & secs & Hl & F & E).
  exists parts, fs. split; [reflexivity |]. split; [exact Hl |]. split.
  - rewrite E. apply in_or_app. left. unfold head_parts.
    do 5 right. now left.
  - intros fname Hin.
    destruct (build_parts_section _ _ _ _ _ _ _ _ _ Hb Hl Hin)
      as (sec & before & after & Hs & Hp).
    now exists sec, before, after.
Qed.


(** C4. With two models and three subfolders the grid of every section
    has twelve cells, four columns by three rows: the header row (the
    blank header and the three subfolder headers) and one row per model
    (eight cell elements).  The first cell of the second model's row is
    the placeholder: an empty element, no label and no image. *)
Theorem two_models_three_subfolders (w : World) (org_dir m1 m2 : Path)
  (s1 s2 s3 : string) (title : string) (max_height : Z) (html : string) :
  build_html w org_dir [m1; m2] [s1; s2; s3] title max_height = Some html ->
  exists parts org_files,
    html = String.concat nl parts
    /\ list_org_files w org_dir = Some org_files
    /\ forall fname, In fname org_files ->
       exists sec before after,
         parts = (before ++ sec ++ after)%list
         /\ section w org_dir [m1; m2] (map name [m1; m2]) [s1; s2; s3] fname
            = Some sec
         /\ List.length (grid_items sec) = 12
         /\ List.length (filter is_hdr sec) = 4
         /\ List.length (cell_items sec) = 8
         /\ grid_rows 4 (grid_items sec)
            = [["<div class='hdr'></div>"; hdr_div s1; hdr_div s2; hdr_div s3];
               [org_item w org_dir fname; CELL_OPEN; CELL_OPEN; CELL_OPEN];
               [PLACEHOLDER; CELL_OPEN; CELL_OPEN; CELL_OPEN]]
         /\ nth_error (grid_items sec) 8
            = Some "<div class='cell placeholder'></div>"
         /\ contains "<img" "<div class='cell placeholder'></div>" = false
         /\ contains "label" "<div class='cell placeholder'></div>" = false.
Proof.
  intros Hh.
  destruct (build_html_section _ _ _ _ _ _ _ Hh)
    as (parts & fs & Hj & Hl & _ & Hsec).
  exists parts, fs. split; [exact Hj |]. split; [exact Hl |].
  intros fname Hin.
  destruct (Hsec fname Hin) as (sec & before & after & Hp & Hs).
  exists sec, before, after.
  split; [exact Hp |]. split; [exact Hs |].
  rewrite (grid_items_section _ _ _ _ _ _ Hs),
    (hdr_items_section _ _ _ _ _ _ Hs), (cell_items_section _ _ _ _ _ _ Hs).
  repeat split; reflexivity.
Qed.


End Rows.


Lemma two_models_three_subfolders_witness :
  exists html parts org_files,
    build_html (FS := Ref.file_system) Sample.world0 Sample.org_dir
      [["m1"]; ["m2"]] ["allResult"; "est_center_map"; "img_bb"] "t" 420
    = Some html
    /\ html = String.concat nl parts
    /\ list_org_files (FS := Ref.file_system) Sample.world0 Sample.org_dir
       = Some org_files
    /\ forall fname, In fname org_files ->
       exists sec before after,
         parts = (before ++ sec ++ after)%list
         /\ List.length (grid_items sec) = 12
         /\ nth_error (grid_items sec) 8 = Some PLACEHOLDER.
Proof.
  destruct (two_models_three_subfolders (FS := Ref.file_system) Sample.world0
              Sample.org_dir ["m1"] ["m2"] "allResult" "est_center_map"
              "img_bb" "t" 420 _ eq_refl)
    as (parts & org_files & H1 & H2 & H3).
  eexists _, parts, org_files.
  split; [reflexivity |]. split; [exact H1 |]. split; [exact H2 |].
  intros fname Hin.
  destruct (H3 fname Hin)
    as (sec & before & after & Hp & _ & Hn & _ & _ & _ & H8 & _).
  now exists sec, before, after.
Defined.


(** ** A reference filename without its original *)

Section OriginalMissing.

Context {P : PathOps} {FS : FileSystem P}.

Local Open Scope path_scope.

(** C7. When [original_dir/filename] does not exist, the section of the
    filename shows the "Original MISSING" marker in the original's
    column, and every model cell is still rendered from the existence
    of its own file. *)
Theorem original_missing_cell (w : World) (org_dir : Path)
  (models : list Path) (subfolders : list string) (fname : string)
  (sec : list string) :
  exists_ w (org_dir </> fname) = false ->
  section w org_dir models (map name models) subfolders fname = Some sec ->
  org_cell w org_dir fname
  = Some ["<div class='cell center'><div class='missing'>Original MISSING</div></div>"]
  /\ nth_error sec (org_cell_offset subfolders) = Some ORIGINAL_MISSING
  /\ forall i j m sub,
       nth_error models i = Some m ->
       nth_error subfolders j = Some sub ->
       exists pre content post,
         sec = (pre ++ [CELL_OPEN; label_div (name m) sub; content; "</div>"]
                ++ post)%list
         /\ List.length pre = model_cell_offset w org_dir subfolders fname i j
         /\ (exists_ w (m </> sub </> fname) = true ->
             exists uri,
               encode_data_uri w (m </> sub </> fname) = Some uri
               /\ content = img_tag uri (model_alt (name m) sub fname))
         /\ (exists_ w (m </> sub </> fname) = false -> content = MISSING).
Proof.
  intros E Hs.
  assert (Ho : org_cell w org_dir fname = Some [ORIGINAL_MISSING])
    by (unfold org_cell; now rewrite E).
  split; [exact Ho |]. split.
  - pose proof Hs as Hs'. apply section_inv in Hs'.
    destruct Hs' as (o & row1 & rows & Ho' & _ & _ & ->).
    rewrite Ho in Ho'. injection Ho' as <-.
    rewrite app_assoc, nth_error_app2
      by (rewrite length_app, length_map; unfold org_cell_offset; simpl; lia).
    rewrite length_app, length_map. unfold org_cell_offset. simpl List.length.
    replace (7 + List.length subfolders - (7 + List.length subfolders)) with 0
      by lia.
    reflexivity.
  - intros i j m sub Hi Hj.
    destruct (section_model_cell _ _ _ _ _ _ _ _ _ _ Hs Hi Hj)
      as (pre & cell & post & Hc & -> & Lp).
    apply model_cell_inv in Hc. destruct Hc as (content & -> & Ht & Hf).
    now exists pre, content, post.
Qed.

End OriginalMissing.

Lemma original_missing_cell_witness :
  exists sec,
    exists_ (FileSystem := Ref.file_system) Sample.world0 ["o"; "gone.png"]
      = false
    /\ section (FS := Ref.file_system) Sample.world0 Sample.org_dir
         Sample.two_models ["m1"; "m2"] ["allResult"] "gone.png" = Some sec
    /\ nth_error sec 8 = Some ORIGINAL_MISSING.
Proof.
  destruct (original_missing_cell (FS := Ref.file_system) Sample.world0
              Sample.org_dir Sample.two_models ["allResult"] "gone.png"
              _ eq_refl eq_refl) as (_ & H & _).
  eexists. split; [reflexivity |]. split; [reflexivity | exact H].
Defined.

(** ** Determinism *)

Section Determinism.

Context {P : PathOps} {FS : FileSystem P}.

Local Open Scope path_scope.

Variables w1 w2 : World.

Hypothesis same_exists : forall p, exists_ w1 p = exists_ w2 p.
Hypothesis same_is_file : forall p, is_file w1 p = is_file w2 p.
Hypothesis same_read : forall p, read_bytes w1 p = read_bytes w2 p.
Hypothesis same_mime : forall s, guess_type w1 s = guess_type w2 s.

Lemma encode_data_uri_same (p : Path) :
  encode_data_uri w1 p = encode_data_uri w2 p.
Proof.
  unfold encode_data_uri, guess_mime. now rewrite same_read, same_mime.
Qed.

Lemma org_cell_same (org_dir : Path) (fname : string) :
  org_cell w1 org_dir fname = org_cell w2 org_dir fname.
Proof.
  unfold org_cell. now rewrite same_exists, encode_data_uri_same.
Qed.

Lemma model_cell_same (m : Path) (label fname sub : string) :
  model_cell w1 m label fname sub = model_cell w2 m label fname sub.
Proof.
  unfold model_cell. now rewrite same_exists, encode_data_uri_same.
Qed.

Lemma section_same (org_dir : Path) (models : list Path)
  (model_labels subfolders : list string) (fname : string) :
  section w1 org_dir models model_labels subfolders fname
  = section w2 org_dir models model_labels subfolders fname.
Proof.
  unfold section. rewrite org_cell_same.
  replace (first_row w1 models model_labels subfolders fname)
    with (first_row w2 models model_labels subfolders fname).
  - replace (for_each (other_row w1 subfolders fname)
               (combine (tl models) (tl model_labels)))
      with (for_each (other_row w2 subfolders fname)
              (combine (tl models) (tl model_labels))); [reflexivity |].
    apply for_each_ext. intros [m label] _. unfold other_row.
    rewrite (for_each_ext (model_cell w2 m label fname)
               (model_cell w1 m label fname)); [reflexivity |].
    intros sub _. symmetry. apply model_cell_same.
  - unfold first_row. destruct models as [| m0 ms]; [reflexivity |].
    destruct (nth_error model_labels 0) as [label0 |]; [| reflexivity].
    apply for_each_ext. intros sub _. symmetry. apply model_cell_same.
Qed.

Lemma is_image_same (p : Path) : is_image w1 p = is_image w2 p.
Proof.
  unfold is_image. now rewrite same_is_file.
Qed.

Lemma list_org_files_same (org_dir : Path) :
  match iterdir w1 org_dir, iterdir w2 org_dir with
  | Some l1, Some l2 => Permutation l1 l2
  | None, None => True
  | _, _ => False
  end ->
  list_org_files w1 org_dir = list_org_files w2 org_dir.
Proof.
  unfold list_org_files.
  destruct (iterdir w1 org_dir) as [l1 |], (iterdir w2 org_dir) as [l2 |];
    try contradiction; [| reflexivity].
  intros Hp. f_equal. apply SortFacts.sorted_canonical.
  apply Permutation_map.
  rewrite (filter_ext (is_image w1) (is_image w2) is_image_same).
  now apply filter_perm.
Qed.

(** C9. [build_html] is a function of its arguments and of the files it
    reads; two snapshots with the same files give the same document,
    byte for byte, even when the original directory enumerates its
    entries in another order. *)
Theorem build_html_deterministic (org_dir : Path) (models : list Path)
  (subfolders : list string) (title : string) (max_height : Z) :
  match iterdir w1 org_dir, iterdir w2 org_dir with
  | Some l1, Some l2 => Permutation l1 l2
  | None, None => True
  | _, _ => False
  end ->
  build_html w1 org_dir models subfolders title max_height
  = build_html w2 org_dir models subfolders title max_height.
Proof.
  intros Hp. unfold build_html, build_parts.
  rewrite (list_org_files_same org_dir Hp).
  destruct (list_org_files w2 org_dir) as [org_files |]; [| reflexivity].
  rewrite (for_each_ext
             (section w1 org_dir models (map name models) subfolders)
             (section w2 org_dir models (map name models) subfolders));
    [reflexivity |].
  intros fname _. apply section_same.
Qed.

End Determinism.

Lemma sample_worlds_same_nodes (p : Ref.path) :
  p <> ["o"] -> Sample.world1 p = Sample.world0 p.
Proof.
  intros N. unfold Sample.world1, Ref.update at 1, Ref.path_eqb.
  destruct (list_eq_dec string_dec p ["o"]); [contradiction | reflexivity].
Defined.

Lemma build_html_deterministic_witness :
  iterdir (FileSystem := Ref.file_system) Sample.world0 Sample.org_dir
    <> iterdir (FileSystem := Ref.file_system) Sample.world1 Sample.org_dir
  /\ build_html (FS := Ref.file_system) Sample.world0 Sample.org_dir
       Sample.two_models DEFAULT_SUBFOLDERS "t" 420
     = build_html (FS := Ref.file_system) Sample.world1 Sample.org_dir
         Sample.two_models DEFAULT_SUBFOLDERS "t" 420.
Proof.
  split; [discriminate |].
  apply (build_html_deterministic (FS := Ref.file_system)
           Sample.world0 Sample.world1).
  - intros p. cbn [exists_ Ref.file_system]. unfold Ref.exists_.
    destruct (list_eq_dec string_dec p ["o"]) as [-> | N];
      [reflexivity | now rewrite sample_worlds_same_nodes].
  - intros p. cbn [is_file Ref.file_system]. unfold Ref.is_file.
    destruct (list_eq_dec string_dec p ["o"]) as [-> | N];
      [reflexivity | now rewrite sample_worlds_same_nodes].
  - intros p. cbn [read_bytes Ref.file_system]. unfold Ref.read_bytes.
    destruct (list_eq_dec string_dec p ["o"]) as [-> | N];
      [reflexivity | now rewrite sample_worlds_same_nodes].
  - reflexivity.
  - cbn.
    apply (Permutation_cons_app
             [["o"; ".png"]; ["o"; "a.JPG"]; ["o"; "c.png."]; ["o"; "notes.txt"]]
             []).
    apply (Permutation_cons_app [["o"; ".png"]]
             [["o"; "c.png."]; ["o"; "notes.txt"]]).
    apply (Permutation_cons_app [["o"; ".png"]; ["o"; "c.png."]] []).
    apply Permutation_refl.
Defined.

(** ** The command line program *)

Section Main.

Context {P : PathOps} {FS : FileSystem P}.

Lemma find_none_all (w : World) (ms : list Path) :
  (forall m, In m ms -> is_dir w m = true) ->
  find (fun m => negb (is_dir w m)) ms = None.
Proof.
  induction ms as [| m ms IH]; intros H; simpl; [reflexivity |].
  rewrite (H m) by now left. simpl.
  apply IH. intros m' Hm'. apply H. now right.
Qed.

Lemma find_some_bad (w : World) (ms : list Path) (m : Path) :
  In m ms -> is_dir w m = false ->
  exists m', find (fun m => negb (is_dir w m)) ms = Some m'
             /\ In m' ms /\ is_dir w m' = false.
Proof.
  intros Hin Hm.
  destruct (find (fun m => negb (is_dir w m)) ms) as [m' |] eqn:E.
  - apply find_some in E. destruct E as [Hin' Hb].
    exists m'. repeat split; auto.
    now destruct (is_dir w m').
  - pose proof (find_none _ _ E m Hin) as N. simpl in N.
    rewrite Hm in N. discriminate.
Qed.

(** C8, as amended.  If the original directory or a model directory is
    not a directory, the program ends with [SystemExit], status 1 and a
    message that names the directory, and the file system is the one it
    started with.  Otherwise, if rendering, creating the parents of the
    output path and writing succeed, the result is the file system after
    that one write, with status 0 and the confirmation line. *)
Theorem main_exit_behaviour (w : World) (args : Args) :
  ((is_dir w (org args) = false
    \/ exists m, In m (models args) /\ is_dir w m = false) ->
   exists d message,
     main w args = (w, SystemExit message)
     /\ exit_status (SystemExit message) = 1
     /\ is_dir w d = false
     /\ ((d = org args
          /\ message = "[ERROR] org dir not found or not a directory: " ++ str d)
         \/ (In d (models args)
             /\ message
                = "[ERROR] model dir not found or not a directory: " ++ str d)))
  /\ (is_dir w (org args) = true ->
      (forall m, In m (models args) -> is_dir w m = true) ->
      forall html w1 w2,
        build_html w (resolve w (org args)) (map (resolve w) (models args))
          (effective_subfolders (folders args)) (title args) (max_height args)
        = Some html ->
        mkdir_parents w (parent (out args)) = Some w1 ->
        write_text w1 (out args) html = Some w2 ->
        main w args = (w2, Exit0 ("[OK] Wrote: " ++ str (out args)))
        /\ exit_status (Exit0 ("[OK] Wrote: " ++ str (out args))) = 0).
Proof.
  split.
  - intros H. unfold main.
    destruct (is_dir w (org args)) eqn:Eo; cbn [negb].
    + destruct H as [H | (m & Hin & Hm)]; [discriminate |].
      destruct (find_some_bad w _ m Hin Hm) as (m' & Hf & Hin' & Hm').
      rewrite Hf. exists m'. eexists. split; [reflexivity |].
      split; [reflexivity |]. split; [exact Hm' |]. right. now split.
    + exists (org args). eexists. split; [reflexivity |].
      split; [reflexivity |]. split; [exact Eo |]. left. now split.
  - intros Ho Hm html w1 w2 Hb Hd Hw. unfold main.
    rewrite Ho, (find_none_all w _ Hm). cbn [negb].
    rewrite Hb, Hd, Hw. now split.
Qed.

End Main.

Lemma main_exit_behaviour_witness :
  (exists message,
     main (FS := Ref.file_system) Sample.world0 Sample.args_bad_model
     = (Sample.world0, SystemExit message)
     /\ message = "[ERROR] model dir not found or not a directory: /o/b.png")
  /\ (exists w2,
        main (FS := Ref.file_system) Sample.world0 Sample.args_ok
        = (w2, Exit0 "[OK] Wrote: /site/gallery.html")
        /\ Ref.is_file w2 ["site"; "gallery.html"] = true
        /\ Ref.exists_ Sample.world0 ["site"] = false).
Proof.
  split.
  - destruct (proj1 (main_exit_behaviour (FS := Ref.file_system)
                       Sample.world0 Sample.args_bad_model))
      as (d & message & H1 & _ & _ & H4).
    { right. exists ["o"; "b.png"]. split; [right; left |]; reflexivity. }
    exists message. split; [exact H1 |].
    vm_compute in H1. now injection H1 as <-.
  - eexists.
    split; [| split; [| reflexivity]].
    + refine (proj1 (proj2 (main_exit_behaviour (FS := Ref.file_system)
                              Sample.world0 Sample.args_ok)
                       eq_refl _ _ _ _ eq_refl eq_refl eq_refl)).
      intros m [<- | [<- | []]]; reflexivity.
    + reflexivity.
Defined.

(** The premise of C8's last clause holds and its conclusion fails:
    every directory argument is a directory, yet [--out] names an
    existing directory, the write raises, and the status is 1. *)
Lemma main_valid_directories_can_fail :
  is_dir (FileSystem := Ref.file_system) Sample.world0
    (org Sample.args_out_is_dir) = true
  /\ forallb (is_dir (FileSystem := Ref.file_system) Sample.world0)
       (models Sample.args_out_is_dir) = true
  /\ snd (main (FS := Ref.file_system) Sample.world0 Sample.args_out_is_dir)
     = Uncaught
  /\ exit_status
       (snd (main (FS := Ref.file_system) Sample.world0 Sample.args_out_is_dir))
     <> 0
  /\ Ref.is_file
       (fst (main (FS := Ref.file_system) Sample.world0 Sample.args_out_is_dir))
       (out Sample.args_out_is_dir) = false.
Proof.
  repeat split; try reflexivity. vm_compute. discriminate.
Qed.

(** ** Escaping of the interpolated strings *)

Module EscapeFacts.
Import Html HtmlFacts.

Lemma skeleton_uint (d : Decimal.uint) :
  skeleton (NilEmpty.string_of_uint d) = EmptyString.
Proof.
  induction d; simpl; auto.
Qed.

Lemma skeleton_decimal_nat (n : nat) : skeleton (decimal_nat n) = EmptyString.
Proof.
  unfold decimal_nat, NilZero.string_of_uint.
  pose proof (skeleton_uint (Nat.to_uint n)) as H.
  destruct (Nat.to_uint n); auto.
Qed.

Lemma skeleton_decimal_int (z : Z) : skeleton (decimal_int z) = EmptyString.
Proof.
  unfold decimal_int, NilZero.string_of_int, NilZero.string_of_uint.
  destruct (Z.to_int z) as [d | d];
    pose proof (skeleton_uint d) as H; destruct d; auto.
Qed.

Lemma skeleton_css (subfolders : list string) (max_height : Z) :
  skeleton (css subfolders max_height) = EmptyString.
Proof.
  unfold css, grid_template_columns.
  rewrite !skeleton_app, skeleton_decimal_nat, skeleton_decimal_int.
  reflexivity.
Qed.

Lemma not_delim_char_of_sextet (s : Base64.sextet) :
  is_delim (Base64.char_of_sextet s) = false.
Proof.
  destruct s as [[[[[b5 b4] b3] b2] b1] b0].
  destruct b5, b4, b3, b2, b1, b0; vm_compute; reflexivity.
Qed.

Lemma skeleton_b64encode (bs : list byte) :
  skeleton (Base64.b64encode bs) = EmptyString.
Proof.
  induction bs as [| x | x y | x y z l IH] using Base64Facts.list_ind3;
    cbn [Base64.b64encode].
  - reflexivity.
  - destruct (Base64.sextets_of_bytes x Base64.zero Base64.zero)
      as [[[a b] c] d].
    cbn [skeleton]. now rewrite !not_delim_char_of_sextet.
  - destruct (Base64.sextets_of_bytes x y Base64.zero) as [[[a b] c] d].
    cbn [skeleton]. now rewrite !not_delim_char_of_sextet.
  - destruct (Base64.sextets_of_bytes x y z) as [[[a b] c] d].
    cbn [skeleton]. now rewrite !not_delim_char_of_sextet, IH.
Qed.

Lemma skeleton_code_list (f : string -> string) (l : list string) :
  skeleton (String.concat ", "
              (map (fun x => "<code>" ++ escape (f x) ++ "</code>") l))
  = code_list_skeleton (List.length l).
Proof.
  induction l as [| x l IH]; [reflexivity |].
  destruct l as [| y l].
  - simpl. rewrite !skeleton_app, skeleton_escape. reflexivity.
  - change (String.concat ", "
              (map (fun x => "<code>" ++ escape (f x) ++ "</code>") (x :: y :: l)))
      with (("<code>" ++ escape (f x) ++ "</code>") ++ ", "
            ++ String.concat ", "
                 (map (fun x => "<code>" ++ escape (f x) ++ "</code>") (y :: l))).
    rewrite !skeleton_app, skeleton_escape, IH. reflexivity.
Qed.

Lemma skeleton_concat_nl (parts : list string) :
  skeleton (String.concat nl parts)
  = String.concat EmptyString (map skeleton parts).
Proof.
  induction parts as [| p parts IH]; [reflexivity |].
  destruct parts as [| q parts].
  - reflexivity.
  - change (String.concat nl (p :: q :: parts))
      with (p ++ nl ++ String.concat nl (q :: parts)).
    change (String.concat EmptyString (map skeleton (p :: q :: parts)))
      with (skeleton p ++ EmptyString
            ++ String.concat EmptyString (map skeleton (q :: parts))).
    rewrite !skeleton_app, IH. reflexivity.
Qed.

End EscapeFacts.

Lemma for_each_Forall {A : Type} (Q : string -> Prop)
  (body : A -> option (list string)) (l : list A) (r : list string) :
  (forall x c, body x = Some c -> Forall Q c) ->
  for_each body l = Some r -> Forall Q r.
Proof.
  intros HQ. revert r. induction l as [| x l IH]; intros r H.
  - injection H as <-. constructor.
  - apply for_each_cons_inv in H. destruct H as (c & r' & Hc & Hr & ->).
    apply Forall_app. split; [eapply HQ; eauto | now apply IH].
Qed.

Ltac split_forall := repeat first [apply Forall_nil | apply Forall_cons].

Ltac skel :=
  rewrite ?HtmlFacts.skeleton_app, ?HtmlFacts.skeleton_escape; reflexivity.

Ltac in_skeletons :=
  solve [ left; unfold TEMPLATE_SKELETONS;
          rewrite ?HtmlFacts.skeleton_app, ?HtmlFacts.skeleton_escape;
          cbn; repeat first [left; reflexivity | right] ].

Section Escaping.

Context {P : PathOps} {FS : FileSystem P}.

Local Open Scope path_scope.

Lemma encode_data_uri_inv (w : World) (p : Path) (uri : string) :
  encode_data_uri w p = Some uri ->
  exists b, uri = "data:" ++ guess_mime w p ++ ";base64," ++ Base64.b64encode b.
Proof.
  unfold encode_data_uri. destruct (read_bytes w p) as [b |]; [| discriminate].
  intros [= <-]. now exists b.
Qed.

Lemma markup_fixed_img (w : World) (p : Path) (uri alt : string) :
  encode_data_uri w p = Some uri ->
  Html.skeleton alt = EmptyString ->
  markup_fixed (img_tag uri alt).
Proof.
  intros Hu Ha. apply encode_data_uri_inv in Hu. destruct Hu as (b & ->).
  right. right. exists (guess_mime w p), (Base64.b64encode b), alt.
  split; [reflexivity |]. split; [apply EscapeFacts.skeleton_b64encode | exact Ha].
Qed.

Lemma skeleton_model_alt (label sub fname : string) :
  Html.skeleton (model_alt label sub fname) = EmptyString.
Proof.
  unfold model_alt.
  now rewrite !HtmlFacts.skeleton_app, !HtmlFacts.skeleton_escape.
Qed.

Lemma markup_fixed_model_cell (w : World) (m : Path) (label fname sub : string)
  (c : list string) :
  model_cell w m label fname sub = Some c -> Forall markup_fixed c.
Proof.
  intros H. apply model_cell_inv in H. destruct H as (content & -> & Ht & Hf).
  split_forall.
  - in_skeletons.
  - unfold label_div. in_skeletons.
  - destruct (exists_ w (m </> sub </> fname)).
    + destruct (Ht eq_refl) as (uri & Hu & ->).
      eapply markup_fixed_img; [exact Hu | apply skeleton_model_alt].
    + rewrite (Hf eq_refl). in_skeletons.
  - in_skeletons.
Qed.

Lemma markup_fixed_org_cell (w : World) (org_dir : Path) (fname : string)
  (o : list string) :
  org_cell w org_dir fname = Some o -> Forall markup_fixed o.
Proof.
  intros H. apply org_cell_inv in H. destruct H as [Ht Hf].
  destruct (exists_ w (org_dir </> fname)).
  - destruct (Ht eq_refl) as (uri & Hu & ->).
    split_forall; try in_skeletons.
    eapply markup_fixed_img; [exact Hu |].
    now rewrite HtmlFacts.skeleton_app, HtmlFacts.skeleton_escape.
  - rewrite (Hf eq_refl). split_forall. in_skeletons.
Qed.

Lemma markup_fixed_section (w : World) (org_dir : Path) (models : list Path)
  (model_labels subfolders : list string) (fname : string) (sec : list string) :
  section w org_dir models model_labels subfolders fname = Some sec ->
  Forall markup_fixed sec.
Proof.
  intros H. apply section_inv in H.
  destruct H as (o & row1 & rows & Ho & H1 & Hr & ->).
  repeat (apply Forall_app; split).
  - unfold section_open, fname_div. split_forall; in_skeletons.
  - apply Forall_forall. intros x Hx.
    apply in_map_iff in Hx. destruct Hx as (sub & <- & _).
    unfold hdr_div. in_skeletons.
  - eapply markup_fixed_org_cell; eauto.
  - unfold first_row in H1. destruct models as [| m0 ms].
    + injection H1 as <-. apply Forall_forall. intros x Hx.
      apply in_map_iff in Hx. destruct Hx as (sub & <- & _). in_skeletons.
    + destruct (nth_error model_labels 0) as [label0 |]; [| discriminate].
      eapply for_each_Forall; [| exact H1].
      intros sub c. apply markup_fixed_model_cell.
  - eapply for_each_Forall; [| exact Hr].
    intros [m label] row Hrow.
    apply other_row_inv in Hrow. destruct Hrow as (cells & Hc & ->).
    apply Forall_cons; [in_skeletons |].
    eapply for_each_Forall; [| exact Hc].
    intros sub c. apply markup_fixed_model_cell.
  - split_forall; in_skeletons.
Qed.

Lemma markup_fixed_head (org_dir : Path) (models : list Path)
  (subfolders : list string) (title : string) (max_height : Z) :
  Forall markup_fixed (head_parts org_dir models subfolders title max_height).
Proof.
  unfold head_parts. split_forall; try in_skeletons.
  - left. rewrite EscapeFacts.skeleton_css. now left.
  - right. left. exists (List.length models).
    rewrite !HtmlFacts.skeleton_app.
    rewrite <- (length_map str models), <- (EscapeFacts.skeleton_code_list (fun x => x)).
    rewrite map_map. cbn. now rewrite StringFacts.append_nil_r.
  - right. left. exists (List.length subfolders).
    rewrite !HtmlFacts.skeleton_app.
    rewrite (EscapeFacts.skeleton_code_list (fun x => x)). reflexivity.
Qed.


End Escaping.


(** ** When rendering succeeds *)

Section Totality.

Context {P : PathOps} {FS : FileSystem P}.

Local Open Scope path_scope.

Variable w : World.

(** Every path that exists can be read: no directory and no unreadable
    file stands where an image is looked up. *)
Hypothesis readable : forall p, exists_ w p = true -> read_bytes w p <> None.

Lemma org_cell_succeeds (org_dir : Path) (fname : string) :
  org_cell w org_dir fname <> None.
Proof.
  unfold org_cell, encode_data_uri.
  destruct (exists_ w (org_dir </> fname)) eqn:E; [| discriminate].
  specialize (readable _ E).
  destruct (read_bytes w (org_dir </> fname)); [discriminate | contradiction].
Qed.

Lemma model_cell_succeeds (m : Path) (label fname sub : string) :
  model_cell w m label fname sub <> None.
Proof.
  unfold model_cell, encode_data_uri.
  destruct (exists_ w (m </> sub </> fname)) eqn:E; [| discriminate].
  specialize (readable _ E).
  destruct (read_bytes w (m </> sub </> fname)); [discriminate | contradiction].
Qed.

Lemma section_succeeds (org_dir : Path) (models : list Path)
  (subfolders : list string) (fname : string) :
  section w org_dir models (map name models) subfolders fname <> None.
Proof.
  unfold section.
  pose proof (org_cell_succeeds org_dir fname) as Ho.
  destruct (org_cell w org_dir fname) as [o |]; [| contradiction].
  assert (H1 : first_row w models (map name models) subfolders fname <> None).
  { unfold first_row. destruct models as [| m0 ms]; [discriminate |]. simpl.
    apply for_each_total. intros sub _. apply model_cell_succeeds. }
  destruct (first_row w models (map name models) subfolders fname);
    [| contradiction].
  assert (Hr : for_each (other_row w subfolders fname)
                 (combine (tl models) (tl (map name models))) <> None).
  { apply for_each_total. intros [m label] _. unfold other_row.
    pose proof (for_each_total (model_cell w m label fname) subfolders
                  (fun sub _ => model_cell_succeeds m label fname sub)) as Hc.
    destruct (for_each (model_cell w m label fname) subfolders);
      [discriminate | contradiction]. }
  destruct (for_each _ _); [discriminate | contradiction].
Qed.

(** [build_html] returns a document whenever the original directory can
    be listed. *)
Lemma build_html_succeeds (org_dir : Path) (models : list Path)
  (subfolders : list string) (title : string) (max_height : Z) :
  iterdir w org_dir <> None ->
  exists html,
    build_html w org_dir models subfolders title max_height = Some html.
Proof.
  intros Hi. unfold build_html, build_parts, list_org_files.
  destruct (iterdir w org_dir) as [ps |]; [| contradiction].
  pose proof (for_each_total
                (section w org_dir models (map name models) subfolders)
                (sorted (map name (filter (is_image w) ps)))
                (fun fname _ => section_succeeds org_dir models subfolders fname))
    as Hs.
  destruct (for_each _ _) as [secs |]; [| contradiction].
  eexists. reflexivity.
Qed.

End Totality.

(** ** The library models on known values *)

Example b64encode_rfc4648 :
  map (fun s => Base64.b64encode (list_byte_of_string s))
      ["f"; "fo"; "foo"; "foob"; "fooba"; "foobar"]
  = ["Zg=="; "Zm8="; "Zm9v"; "Zm9vYg=="; "Zm9vYmE="; "Zm9vYmFy"].
Proof. reflexivity. Qed.

Example escape_markup :
  Html.escape "<a href='x' t=&>" = "&lt;a href=&#x27;x&#x27; t=&amp;&gt;".
Proof. reflexivity. Qed.

Example escape_double_quote :
  Html.escape (String Html.dquote "&amp;") = "&quot;&amp;amp;".
Proof. reflexivity. Qed.

Example extensions_case_insensitive :
  map (fun s => mem (lower s) IMAGE_EXTS)
      [".PNG"; ".JpEg"; ".webp"; ".GIF"; ".txt"; ".pngx"; "png"]
  = [true; true; true; true; false; false; false].
Proof. reflexivity. Qed.

Example sorted_by_code_point :
  sorted ["b.png"; "a.png"; "B.png"; "a10.png"; "a2.png"]
  = ["B.png"; "a.png"; "a10.png"; "a2.png"; "b.png"].
Proof. reflexivity. Qed.

Example decimal_of_int :
  (decimal_int 420, decimal_int 0, decimal_int (-5), decimal_nat 3)
  = ("420", "0", "-5", "3").
Proof. reflexivity. Qed.

(** * Further properties of the code *)

(** ** Base64 text *)

Module Base64More.
Import Base64.

Lemma is_b64_char_of_sextet (s : sextet) : is_b64_char (char_of_sextet s) = true.
Proof.
  destruct s as [[[[[b5 b4] b3] b2] b1] b0].
  destruct b5, b4, b3, b2, b1, b0; vm_compute; reflexivity.
Qed.

(** X1. The Base64 text of [n] bytes has [4 * ceil(n / 3)] characters. *)
Theorem b64encode_length (bs : list byte) :
  String.length (b64encode bs) = 4 * ((List.length bs + 2) / 3).
Proof.
  induction bs as [| x | x y | x y z l IH] using Base64Facts.list_ind3;
    cbn [b64encode].
  - reflexivity.
  - destruct (sextets_of_bytes x zero zero) as [[[a b] c] d]. reflexivity.
  - destruct (sextets_of_bytes x y zero) as [[[a b] c] d]. reflexivity.
  - destruct (sextets_of_bytes x y z) as [[[a b] c] d].
    cbn [String.length List.length]. rewrite IH.
    replace (S (S (S (List.length l))) + 2) with (List.length l + 2 + 1 * 3)
      by lia.
    rewrite Nat.div_add by discriminate. lia.
Qed.

(** X2. The Base64 text holds only letters, digits, [+], [/] and [=]. *)
Theorem b64encode_charset (bs : list byte) :
  string_forallb is_b64_char (b64encode bs) = true.
Proof.
  induction bs as [| x | x y | x y z l IH] using Base64Facts.list_ind3;
    cbn [b64encode].
  - reflexivity.
  - destruct (sextets_of_bytes x zero zero) as [[[a b] c] d].
    cbn [string_forallb]. now rewrite !is_b64_char_of_sextet.
  - destruct (sextets_of_bytes x y zero) as [[[a b] c] d].
    cbn [string_forallb]. now rewrite !is_b64_char_of_sextet.
  - destruct (sextets_of_bytes x y z) as [[[a b] c] d].
    cbn [string_forallb]. now rewrite !is_b64_char_of_sextet, IH.
Qed.

End Base64More.

(** ** [html.escape] *)

Module EscapeMore.
Import Html HtmlFacts.

Lemma escape_char_plain (c : ascii) :
  needs_escape c = false -> escape_char c = String c EmptyString.
Proof.
  unfold needs_escape, escape_char.
  destruct (Ascii.eqb c "&"); [discriminate |].
  destruct (Ascii.eqb c "<"); [discriminate |].
  destruct (Ascii.eqb c ">"); [discriminate |].
  destruct (Ascii.eqb c dquote); [discriminate |].
  destruct (Ascii.eqb c squote); [discriminate | reflexivity].
Qed.

(** X3. A string without [&], [<], [>] and quotes is left as it is. *)
Theorem escape_plain (s : string) :
  string_forallb (fun c => negb (needs_escape c)) s = true ->
  escape s = s.
Proof.
  induction s as [| c t IH]; [reflexivity |].
  cbn [string_forallb]. intros H. apply andb_prop in H. destruct H as [Hc Ht].
  apply negb_true_iff in Hc.
  rewrite escape_cons, (escape_char_plain _ Hc), (IH Ht). reflexivity.
Qed.

Lemma escape_char_cases (c : ascii) :
  (c = "&"%char /\ escape_char c = "&amp;")
  \/ (c = "<"%char /\ escape_char c = "&lt;")
  \/ (c = ">"%char /\ escape_char c = "&gt;")
  \/ (c = dquote /\ escape_char c = "&quot;")
  \/ (c = squote /\ escape_char c = "&#x27;")
  \/ (c <> "&"%char /\ escape_char c = String c EmptyString).
Proof.
  unfold escape_char.
  destruct (Ascii.eqb_spec c "&") as [-> | N1]; [now left |].
  destruct (Ascii.eqb_spec c "<") as [-> | N2]; [now right; left |].
  destruct (Ascii.eqb_spec c ">") as [-> | N3]; [now right; right; left |].
  destruct (Ascii.eqb_spec c dquote) as [-> | N4];
    [now right; right; right; left |].
  destruct (Ascii.eqb_spec c squote) as [-> | N5];
    [now right; right; right; right; left |].
  now right; right; right; right; right.
Qed.

(** X4. [html.escape] loses nothing: two strings with the same escaped
    text are the same string. *)
Theorem escape_injective (s1 s2 : string) :
  escape s1 = escape s2 -> s1 = s2.
Proof.
  revert s2. induction s1 as [| c1 t1 IH]; intros [| c2 t2] H.
  - reflexivity.
  - rewrite escape_cons in H. change (escape EmptyString) with EmptyString in H.
    destruct (escape_char_cases c2)
      as [[_ E] | [[_ E] | [[_ E] | [[_ E] | [[_ E] | [_ E]]]]]];
      rewrite E in H; discriminate.
  - rewrite escape_cons in H. change (escape EmptyString) with EmptyString in H.
    destruct (escape_char_cases c1)
      as [[_ E] | [[_ E] | [[_ E] | [[_ E] | [[_ E] | [_ E]]]]]];
      rewrite E in H; discriminate.
  - rewrite !escape_cons in H.
    destruct (escape_char_cases c1)
      as [[-> E1] | [[-> E1] | [[-> E1] | [[-> E1] | [[-> E1] | [N1 E1]]]]]];
      destruct (escape_char_cases c2)
        as [[-> E2] | [[-> E2] | [[-> E2] | [[-> E2] | [[-> E2] | [N2 E2]]]]]];
      rewrite ?E1, ?E2 in H; cbn [append] in H;
      try discriminate;
      try (injection H as H; f_equal; now apply IH);
      try (injection H as Hc H; congruence).
    injection H as Hc H. subst. f_equal. now apply IH.
Qed.

End EscapeMore.

Lemma escape_plain_witness :
  string_forallb (fun c => negb (needs_escape c)) "a-1_b.JPG" = true
  /\ Html.escape "a-1_b.JPG" = "a-1_b.JPG".
Proof.
  split; [reflexivity | apply EscapeMore.escape_plain; reflexivity].
Defined.

(** ** MIME types and discovery *)

Lemma dict_get_cases (d : list (string * string)) (k default : string) :
  dict_get d k default = default \/ In (dict_get d k default) (map snd d).
Proof.
  induction d as [| [k' v] d IH]; simpl; [now left |].
  destruct (String.eqb k k'); [right; now left |].
  destruct IH as [IH | IH]; [now left | right; now right].
Qed.

Lemma NoDup_map_filter {A B : Type} (f : A -> B) (g : A -> bool) (l : list A) :
  NoDup (map f l) -> NoDup (map f (filter g l)).
Proof.
  induction l as [| x l IH]; simpl; intros H; [constructor |].
  inversion H as [| y l' Hnin Hnd]; subst.
  destruct (g x); [| now apply IH].
  simpl. constructor; [| now apply IH].
  intros Hin. apply Hnin.
  apply in_map_iff in Hin. destruct Hin as (z & Hz & Hzin).
  apply filter_In in Hzin. apply in_map_iff. exists z. tauto.
Qed.

Lemma strictly_sorted (l : list string) :
  StronglySorted str_le l -> NoDup l ->
  StronglySorted (fun a b => String.ltb a b = true) l.
Proof.
  induction 1 as [| x l S IH F]; intros Hnd; constructor.
  - apply IH. now inversion Hnd.
  - inversion Hnd as [| y l' Hnin _]; subst.
    rewrite Forall_forall in *. intros y Hy.
    specialize (F y Hy). unfold str_le, String.leb in F. unfold String.ltb.
    destruct (String.compare x y) eqn:E; try discriminate; [| reflexivity].
    apply String_as_OT.cmp_eq in E. subst. contradiction.
Qed.

Section MimeAndDiscovery.

Context {P : PathOps} {FS : FileSystem P}.

(** X5. When the MIME database has no answer, a path whose lower-cased
    suffix is one of [IMAGE_EXTS] still gets an image type from the
    table: the table has an entry for every recognized extension. *)
Theorem guess_mime_image_fallback (w : World) (path : Path) :
  guess_type w (str path) = None \/ guess_type w (str path) = Some EmptyString ->
  mem (lower (suffix path)) IMAGE_EXTS = true ->
  String.prefix "image/" (guess_mime w path) = true.
Proof.
  intros Hg Hm. unfold guess_mime.
  assert (E : dict_get MIME_TABLE (lower (suffix path)) "application/octet-stream"
              = guess_mime w path)
    by (unfold guess_mime; destruct Hg as [-> | ->]; reflexivity).
  unfold guess_mime in E. rewrite <- E. clear E Hg.
  unfold mem, IMAGE_EXTS in Hm. cbn [existsb] in Hm.
  cbn [dict_get MIME_TABLE].
  revert Hm. generalize (lower (suffix path)) as e. intros e.
  destruct (String.eqb_spec e ".png") as [-> | N1]; [reflexivity |].
  destruct (String.eqb_spec e ".jpg") as [-> | N2]; [reflexivity |].
  destruct (String.eqb_spec e ".jpeg") as [-> | N3]; [reflexivity |].
  destruct (String.eqb_spec e ".bmp") as [-> | N4]; [reflexivity |].
  destruct (String.eqb_spec e ".gif") as [-> | N5]; [reflexivity |].
  destruct (String.eqb_spec e ".webp") as [-> | N6]; [reflexivity |].
  discriminate.
Qed.

(** X6. The MIME type put in a data URI is never empty: it is a
    non-empty answer of the database, a table entry or the default. *)
Theorem guess_mime_not_empty (w : World) (path : Path) :
  guess_mime w path <> EmptyString.
Proof.
  assert (T : forall k,
             dict_get MIME_TABLE k "application/octet-stream" <> EmptyString).
  { intros k.
    pose proof (dict_get_cases MIME_TABLE k "application/octet-stream") as H.
    revert H.
    generalize (dict_get MIME_TABLE k "application/octet-stream") as v.
    intros v [-> | H]; [discriminate |].
    cbn in H.
    repeat (destruct H as [H | H]; [rewrite <- H; discriminate |]).
    contradiction. }
  unfold guess_mime.
  destruct (guess_type w (str path)) as [[| c t] |];
    [apply T | discriminate | apply T].
Qed.

(** X7. When the entries of the original directory have distinct names,
    the reference filenames are strictly increasing: no filename gets
    two sections. *)
Theorem list_org_files_distinct (w : World) (org_dir : Path) (ps : list Path) :
  iterdir w org_dir = Some ps ->
  NoDup (map name ps) ->
  exists org_files,
    list_org_files w org_dir = Some org_files
    /\ NoDup org_files
    /\ StronglySorted (fun a b => String.ltb a b = true) org_files.
Proof.
  intros Hi Hnd. unfold list_org_files. rewrite Hi.
  eexists. split; [reflexivity |].
  assert (N : NoDup (sorted (map name (filter (is_image w) ps)))).
  { eapply Permutation_NoDup;
      [apply Permutation_sym, SortFacts.sorted_perm |].
    now apply NoDup_map_filter. }
  split; [exact N |].
  apply strictly_sorted; [apply SortFacts.sorted_strongly | exact N].
Qed.

End MimeAndDiscovery.

Lemma guess_mime_image_fallback_witness :
  guess_type (FileSystem := Ref.file_system) Sample.world0
    (str (PathOps := Ref.path_ops) ["m1"; "x.BMP"]) = None
  /\ String.prefix "image/"
       (guess_mime (FS := Ref.file_system) Sample.world0 ["m1"; "x.BMP"]) = true.
Proof.
  split; [reflexivity |].
  apply (guess_mime_image_fallback (FS := Ref.file_system));
    [left |]; reflexivity.
Defined.

Lemma list_org_files_distinct_witness :
  exists org_files,
    list_org_files (FS := Ref.file_system) Sample.world0 Sample.org_dir
      = Some org_files
    /\ NoDup org_files.
Proof.
  destruct (list_org_files_distinct (FS := Ref.file_system) Sample.world0
              Sample.org_dir _ eq_refl) as (l & H1 & H2 & _).
  - cbn. repeat constructor; cbn; intuition discriminate.
  - now exists l.
Defined.

(** ** Columns of the grid *)

Lemma for_each_nth_split {A : Type} (body : A -> option (list string))
  (l : list A) (r : list string) (j : nat) (x : A) :
  for_each body l = Some r ->
  nth_error l j = Some x ->
  exists pre c post,
    body x = Some c /\ r = (pre ++ c ++ post)%list
    /\ for_each body (firstn j l) = Some pre.
Proof.
  revert r j. induction l as [| y l IH]; intros r j H Hj.
  - destruct j; discriminate.
  - apply for_each_cons_inv in H. destruct H as (c & r' & Hc & Hr & ->).
    destruct j as [| j]; simpl in Hj.
    + injection Hj as ->. now exists [], c, r'.
    + destruct (IH _ _ Hr Hj) as (pre & c' & post & Hc' & -> & Hp).
      exists (c ++ pre)%list, c', post. repeat split; auto.
      * now rewrite <- app_assoc.
      * simpl. now rewrite Hc, Hp.
Qed.

Lemma firstn_combine_map {A B : Type} (f : A -> B) (l : list A) (n : nat) :
  firstn n (combine l (map f l)) = combine (firstn n l) (map f (firstn n l)).
Proof.
  revert n. induction l as [| x l IH]; intros [| n]; simpl; try reflexivity.
  now rewrite IH.
Qed.

Lemma length_concat_const {A : Type} (l : list A) (row : list string) :
  List.length (List.concat (map (fun _ => row) l))
  = List.length row * List.length l.
Proof.
  induction l as [| x l IH]; simpl; [lia |].
  rewrite length_app, IH. lia.
Qed.

Lemma grid_items_app (a b : list string) :
  grid_items (a ++ b) = (grid_items a ++ grid_items b)%list.
Proof.
  apply filter_app.
Qed.

Section Columns.

Context {P : PathOps} {FS : FileSystem P}.

Local Open Scope path_scope.

(** X8. In the grid of a section the header of subfolder [j] is child
    [1 + j], and the cell of model [i] and subfolder [j], labelled with
    that model and subfolder, is child [cols * (1 + i) + 1 + j]: it lies
    in the column of its header. *)
Theorem cell_under_its_header (w : World) (org_dir : Path)
  (models : list Path) (subfolders : list string) (fname : string)
  (sec : list string) (i j : nat) (m : Path) (sub : string) :
  section w org_dir models (map name models) subfolders fname = Some sec ->
  nth_error models i = Some m ->
  nth_error subfolders j = Some sub ->
  nth_error (grid_items sec) (1 + j) = Some (hdr_div sub)
  /\ exists pre content post,
       sec = (pre ++ [CELL_OPEN; label_div (name m) sub; content; "</div>"]
              ++ post)%list
       /\ List.length (grid_items pre) = cols subfolders * (1 + i) + 1 + j
       /\ nth_error (grid_items sec) (cols subfolders * (1 + i) + 1 + j)
          = Some CELL_OPEN.
Proof.
  intros Hs Hi Hj.
  pose proof (grid_items_section _ _ _ _ _ _ Hs) as Hg.
  assert (Lj : j < List.length subfolders)
    by (apply nth_error_Some; congruence).
  split.
  { rewrite Hg. unfold hdr_row. cbn [app nth_error Nat.add].
    rewrite nth_error_app1 by now rewrite length_map.
    now rewrite nth_error_map, Hj. }
  assert (Pre : exists pre content post,
             sec = (pre ++ [CELL_OPEN; label_div (name m) sub; content; "</div>"]
                    ++ post)%list
             /\ List.length (grid_items pre)
                = cols subfolders * (1 + i) + 1 + j).
  { apply section_inv in Hs.
    destruct Hs as (o & row1 & rows & Ho & H1 & Hr & ->).
    pose proof (grid_items_org_cell _ _ _ _ Ho) as Go.
    destruct models as [| m0 ms]; [destruct i; discriminate |].
    apply first_row_cons_inv in H1.
    pose proof (grid_items_model_cells _ _ _ _ _ _ H1) as G1.
    assert (Gh : List.length (grid_items (section_open fname)) = 1)
      by reflexivity.
    destruct i as [| i'].
    - injection Hi as <-.
      destruct (for_each_nth_split _ _ _ _ _ H1 Hj)
        as (pre1 & cell & post1 & Hc & -> & Hp).
      apply model_cell_inv in Hc. destruct Hc as (content & -> & _ & _).
      exists (section_open fname ++ map hdr_div subfolders ++ o ++ pre1)%list,
        content, (post1 ++ rows ++ ["</div>"; "</section>"])%list.
      split; [now rewrite <- !app_assoc |].
      rewrite !grid_items_app, !length_app, Gh, grid_items_hdrs, length_map, Go,
        (grid_items_model_cells _ _ _ _ _ _ Hp), repeat_length, length_firstn.
      simpl List.length. unfold cols. lia.
    - simpl in Hi, Hr.
      pose proof (nth_error_combine_map name ms i' m Hi) as Hi'.
      destruct (for_each_nth_split _ _ _ _ _ Hr Hi')
        as (pre1 & row & post1 & Hrow & -> & Hp1).
      apply other_row_inv in Hrow. destruct Hrow as (cells & Hcells & ->).
      destruct (for_each_nth_split _ _ _ _ _ Hcells Hj)
        as (pre2 & cell & post2 & Hc & -> & Hp2).
      apply model_cell_inv in Hc. destruct Hc as (content & -> & _ & _).
      exists (section_open fname ++ map hdr_div subfolders ++ o ++ row1
              ++ pre1 ++ PLACEHOLDER :: pre2)%list,
        content, (post2 ++ post1 ++ ["</div>"; "</section>"])%list.
      split; [rewrite <- !app_assoc; simpl; now rewrite <- !app_assoc |].
      change (PLACEHOLDER :: pre2) with ([PLACEHOLDER] ++ pre2)%list.
      rewrite !grid_items_app, !length_app, Gh, grid_items_hdrs, length_map,
        Go, G1, repeat_length,
        (grid_items_other_rows _ _ _ _ _ Hp1), firstn_combine_map,
        map_const_combine, length_concat_const,
        (grid_items_model_cells _ _ _ _ _ _ Hp2).
      change (grid_items [PLACEHOLDER]) with [PLACEHOLDER].
      cbn [List.length]. rewrite !repeat_length, !length_firstn.
      assert (Li : i' < List.length ms) by (apply nth_error_Some; congruence).
      unfold cols. nia. }
  destruct Pre as (pre & content & post & E & L).
  exists pre, content, post. split; [exact E |]. split; [exact L |].
  rewrite E, grid_items_app.
  rewrite nth_error_app2 by lia. rewrite L, Nat.sub_diag. reflexivity.
Qed.

(** X9. When the original of a filename exists, the four parts at the
    original's offset are its cell: the [org_img] label and an image
    whose [src] is the data URI of [original_dir/filename] and whose
    [alt] is [org:] followed by the escaped filename. *)
Theorem original_present_cell (w : World) (org_dir : Path)
  (models : list Path) (subfolders : list string) (fname : string)
  (sec : list string) :
  exists_ w (org_dir </> fname) = true ->
  section w org_dir models (map name models) subfolders fname = Some sec ->
  exists uri,
    encode_data_uri w (org_dir </> fname) = Some uri
    /\ firstn 4 (skipn (org_cell_offset subfolders) sec)
       = [CELL_OPEN; "<div class='label'>org_img</div>";
          "<img src='" ++ uri ++ "' alt='org:" ++ Html.escape fname ++ "'>";
          "</div>"].
Proof.
  intros E Hs. apply section_inv in Hs.
  destruct Hs as (o & row1 & rows & Ho & _ & _ & ->).
  apply org_cell_inv in Ho. destruct Ho as [Ht _].
  destruct (Ht E) as (uri & Hu & ->).
  exists uri. split; [exact Hu |].
  rewrite app_assoc, skipn_app, skipn_all2
    by (rewrite length_app, length_map; unfold org_cell_offset; simpl; lia).
  rewrite length_app, length_map. unfold org_cell_offset. simpl List.length.
  rewrite Nat.sub_diag. reflexivity.
Qed.

End Columns.

(** ** Counting the parts of a section *)

Section Counting.

Context {P : PathOps} {FS : FileSystem P}.

Local Open Scope path_scope.

Variable f : string -> bool.
Variables fi fm : bool.

Hypothesis f_img : forall uri alt, f (img_tag uri alt) = fi.
Hypothesis f_missing : f MISSING = fm.
Hypothesis f_cell_open : f CELL_OPEN = false.
Hypothesis f_close : f "</div>" = false.
Hypothesis f_label : forall label sub, f (label_div label sub) = false.
Hypothesis f_org_label : f "<div class='label'>org_img</div>" = false.
Hypothesis f_hdr : forall sub, f (hdr_div sub) = false.
Hypothesis f_open : forall fname, filter f (section_open fname) = [].
Hypothesis f_section_close : f "</section>" = false.
Hypothesis f_no_model : f NO_MODEL = false.
Hypothesis f_placeholder : f PLACEHOLDER = false.
Hypothesis f_original_missing : f ORIGINAL_MISSING = false.

Lemma count_model_cell (w : World) (m : Path) (label fname sub : string)
  (c : list string) :
  model_cell w m label fname sub = Some c ->
  List.length (filter f c) = cell_count fi fm w fname m sub.
Proof.
  intros H. apply model_cell_inv in H. destruct H as (content & -> & Ht & Hf).
  unfold cell_count. cbn [filter].
  rewrite f_cell_open, f_label, f_close.
  destruct (exists_ w (m </> sub </> fname)).
  - destruct (Ht eq_refl) as (uri & _ & ->). rewrite f_img. now destruct fi.
  - rewrite (Hf eq_refl), f_missing. now destruct fm.
Qed.

Lemma count_model_cells (w : World) (m : Path) (label fname : string)
  (subfolders : list string) (cells : list string) :
  for_each (model_cell w m label fname) subfolders = Some cells ->
  List.length (filter f cells)
  = list_sum (map (cell_count fi fm w fname m) subfolders).
Proof.
  revert cells. induction subfolders as [| sub subs IH]; intros cells H.
  - now injection H as <-.
  - apply for_each_cons_inv in H. destruct H as (c & r & Hc & Hr & ->).
    rewrite filter_app, length_app, (count_model_cell _ _ _ _ _ _ Hc), (IH _ Hr).
    reflexivity.
Qed.

Lemma count_other_rows (w : World) (subfolders : list string) (fname : string)
  (ms : list Path) (rows : list string) :
  for_each (other_row w subfolders fname) (combine ms (map name ms)) = Some rows ->
  List.length (filter f rows)
  = list_sum (map (fun m => list_sum (map (cell_count fi fm w fname m) subfolders)) ms).
Proof.
  revert rows. induction ms as [| m ms IH]; intros rows H.
  - now injection H as <-.
  - simpl combine in H.
    apply for_each_cons_inv in H. destruct H as (row & r & Hrow & Hr & ->).
    apply other_row_inv in Hrow. destruct Hrow as (cells & Hc & ->).
    rewrite filter_app, length_app, (IH _ Hr).
    cbn [filter]. rewrite f_placeholder, (count_model_cells _ _ _ _ _ _ Hc).
    reflexivity.
Qed.

Lemma count_section (w : World) (org_dir : Path) (models : list Path)
  (subfolders : list string) (fname : string) (sec : list string) :
  section w org_dir models (map name models) subfolders fname = Some sec ->
  List.length (filter f sec)
  = (if exists_ w (org_dir </> fname) then Nat.b2n fi else 0)
    + list_sum
        (map (fun m => list_sum (map (cell_count fi fm w fname m) subfolders)) models).
Proof.
  intros H. apply section_inv in H.
  destruct H as (o & row1 & rows & Ho & H1 & Hr & ->).
  rewrite !filter_app, !length_app, f_open.
  rewrite (filter_none f (map hdr_div subfolders))
    by (intros x Hx; apply in_map_iff in Hx; destruct Hx as (s & <- & _);
        apply f_hdr).
  cbn [filter]. rewrite f_close, f_section_close. cbn [List.length].
  assert (Co : List.length (filter f o)
               = if exists_ w (org_dir </> fname) then Nat.b2n fi else 0).
  { apply org_cell_inv in Ho. destruct Ho as [Ht Hf].
    destruct (exists_ w (org_dir </> fname)).
    - destruct (Ht eq_refl) as (uri & _ & ->). cbn [filter].
      rewrite f_cell_open, f_org_label, f_img, f_close. now destruct fi.
    - rewrite (Hf eq_refl). cbn [filter]. now rewrite f_original_missing. }
  rewrite Co.
  destruct models as [| m0 ms].
  - simpl in H1, Hr. injection H1 as <-. injection Hr as <-.
    rewrite (filter_none f (map (fun _ => NO_MODEL) subfolders))
      by (intros x Hx; apply in_map_iff in Hx; destruct Hx as (s & <- & _);
          apply f_no_model).
    simpl. lia.
  - apply first_row_cons_inv in H1. simpl in Hr.
    rewrite (count_model_cells _ _ _ _ _ _ H1), (count_other_rows _ _ _ _ _ Hr).
    simpl. lia.
Qed.

End Counting.

Lemma missing_plus_present {A : Type} (e : A -> bool) (l : list A) :
  list_sum (map (fun x => if e x then 0 else 1) l)
  + list_sum (map (fun x => if e x then 1 else 0) l)
  = List.length l.
Proof.
  induction l as [| x l IH]; simpl; [reflexivity |].
  destruct (e x); simpl; lia.
Qed.

Section Images.

Context {P : PathOps} {FS : FileSystem P}.

Local Open Scope path_scope.

(** X10. A section embeds every existing image once and marks every
    missing model image once: its image tags are as many as the
    existing files among the original and the model images, and its
    MISSING markers together with the existing model images are
    [len(models) * len(subfolders)]. *)
Theorem images_and_markers_counted (w : World) (org_dir : Path)
  (models : list Path) (subfolders : list string) (fname : string)
  (sec : list string) :
  section w org_dir models (map name models) subfolders fname = Some sec ->
  List.length (filter is_img sec)
  = present w (org_dir </> fname) + model_images w models subfolders fname
  /\ List.length (filter is_missing sec)
     + model_images w models subfolders fname
     = List.length models * List.length subfolders.
Proof.
  intros Hs. split.
  - eapply eq_trans.
    { eapply (count_section is_img true false); [.. | exact Hs];
        intros; reflexivity. }
    reflexivity.
  - erewrite (count_section is_missing false true); [| .. | exact Hs];
      try (intros; reflexivity).
    cbn [Nat.b2n]. unfold model_images, cell_count, present. cbn [Nat.b2n].
    replace (if exists_ w (org_dir </> fname) then 0 else 0) with 0
      by now destruct (exists_ w (org_dir </> fname)).
    cbn [Nat.add]. clear Hs.
    induction models as [| m ms IH]; [reflexivity |].
    pose proof (missing_plus_present
                  (fun sub => exists_ w (m </> sub </> fname)) subfolders) as E.
    cbv beta in E. simpl. lia.
Qed.


End Images.

(** ** Data URIs in a clean MIME database *)

Section CleanMime.

Context {P : PathOps} {FS : FileSystem P}.

Variable w : World.

(** The types of the MIME database hold no tag bracket and no quote. *)
Hypothesis clean_db :
  forall s m, guess_type w s = Some m -> Html.skeleton m = EmptyString.

Lemma skeleton_guess_mime (path : Path) :
  Html.skeleton (guess_mime w path) = EmptyString.
Proof.
  unfold guess_mime.
  assert (T : forall k,
             Html.skeleton (dict_get MIME_TABLE k "application/octet-stream")
             = EmptyString).
  { intros k.
    pose proof (dict_get_cases MIME_TABLE k "application/octet-stream") as H.
    revert H.
    generalize (dict_get MIME_TABLE k "application/octet-stream") as v.
    intros v [-> | H]; [reflexivity |].
    cbn in H.
    repeat (destruct H as [H | H]; [rewrite <- H; reflexivity |]).
    contradiction. }
  destruct (guess_type w (str path)) as [[| c t] |] eqn:E;
    [apply T | exact (clean_db _ _ E) | apply T].
Qed.

Lemma skeleton_data_uri (path : Path) (uri : string) :
  encode_data_uri w path = Some uri -> Html.skeleton uri = EmptyString.
Proof.
  intros H. apply encode_data_uri_inv in H. destruct H as (b & ->).
  now rewrite !HtmlFacts.skeleton_app, skeleton_guess_mime,
    EscapeFacts.skeleton_b64encode.
Qed.


End CleanMime.

(** ** Runs of the program *)

Section Runs.

Context {P : PathOps} {FS : FileSystem P}.

Lemma find_first_bad (w : World) (good rest : list Path) (bad : Path) :
  (forall m, In m good -> is_dir w m = true) ->
  is_dir w bad = false ->
  find (fun m => negb (is_dir w m)) (good ++ bad :: rest) = Some bad.
Proof.
  intros Hg Hb. induction good as [| g good IH]; simpl.
  - now rewrite Hb.
  - rewrite (Hg g) by now left. simpl.
    apply IH. intros m Hm. apply Hg. now right.
Qed.

Lemma find_bad_none (w : World) (ms : list Path) :
  find (fun m => negb (is_dir w m)) ms = None ->
  forall m, In m ms -> is_dir w m = true.
Proof.
  intros H m Hin. pose proof (find_none _ _ H m Hin) as N. simpl in N.
  now destruct (is_dir w m).
Qed.

(** X13. The status is 0 exactly when every directory argument is a
    directory and rendering, creating the parents of the output and
    writing all succeed; the file system is then the one after writing
    the rendered document to the output path. *)
Theorem main_succeeds_iff (w : World) (args : Args) :
  exit_status (snd (main w args)) = 0
  <-> exists html w1 w2,
        is_dir w (org args) = true
        /\ (forall m, In m (models args) -> is_dir w m = true)
        /\ build_html w (resolve w (org args)) (map (resolve w) (models args))
             (effective_subfolders (folders args)) (title args)
             (max_height args) = Some html
        /\ mkdir_parents w (parent (out args)) = Some w1
        /\ write_text w1 (out args) html = Some w2
        /\ main w args = (w2, Exit0 ("[OK] Wrote: " ++ str (out args))).
Proof.
  unfold main. split.
  - destruct (is_dir w (org args)) eqn:Eo; cbn [negb]; [| discriminate].
    destruct (find _ (models args)) eqn:Ef; [discriminate |].
    destruct (build_html _ _ _ _ _ _) as [html |] eqn:Eb; [| discriminate].
    destruct (mkdir_parents w (parent (out args))) as [w1 |] eqn:Em;
      [| discriminate].
    destruct (write_text w1 (out args) html) as [w2 |] eqn:Ew;
      [| discriminate].
    intros _. exists html, w1, w2.
    repeat split; auto. now apply find_bad_none.
  - intros (html & w1 & w2 & Ho & Hm & Hb & Hd & Hw & _).
    rewrite Ho, (find_none_all w _ Hm). cbn [negb].
    now rewrite Hb, Hd, Hw.
Qed.


(** X15. The directories are checked in order: an invalid [--org] is
    reported whatever the models are, and with a valid [--org] the
    message names the first model, in command line order, that is not a
    directory. *)
Theorem main_reports_first_invalid (w : World) (args : Args) :
  (is_dir w (org args) = false ->
   main w args
   = (w, SystemExit ("[ERROR] org dir not found or not a directory: "
                     ++ str (org args))))
  /\ (forall good bad rest,
        is_dir w (org args) = true ->
        models args = (good ++ bad :: rest)%list ->
        (forall m, In m good -> is_dir w m = true) ->
        is_dir w bad = false ->
        main w args
        = (w, SystemExit ("[ERROR] model dir not found or not a directory: "
                          ++ str bad))).
Proof.
  unfold main. split.
  - intros ->. reflexivity.
  - intros good bad rest -> -> Hg Hb. cbn [negb].
    now rewrite (find_first_bad w good rest bad Hg Hb).
Qed.

(** X16. When the original directory holds no file with a recognized
    extension, the document is the head and the closing line, with no
    section, whatever the model directories hold. *)
Theorem no_image_no_section (w : World) (org_dir : Path) (models : list Path)
  (subfolders : list string) (title : string) (max_height : Z)
  (ps : list Path) :
  iterdir w org_dir = Some ps ->
  (forall p, In p ps -> is_image w p = false) ->
  build_html w org_dir models subfolders title max_height
  = Some (String.concat nl
            (head_parts org_dir models subfolders title max_height
             ++ ["</div></body></html>"])%list).
Proof.
  intros Hi Hn. unfold build_html, build_parts, list_org_files.
  rewrite Hi, (filter_none _ _ Hn). reflexivity.
Qed.

End Runs.

(** ** The further properties on the sample inputs *)

Lemma escape_injective_witness :
  Html.escape "a<b" = "a&lt;b" /\ "a<b" = "a<b".
Proof.
  split; [reflexivity |].
  apply (EscapeMore.escape_injective "a<b" "a<b"). reflexivity.
Defined.

Lemma cell_under_its_header_witness :
  exists sec,
    section (FS := Ref.file_system) Sample.world0 Sample.org_dir
      Sample.two_models ["m1"; "m2"] DEFAULT_SUBFOLDERS "a.JPG" = Some sec
    /\ nth_error (grid_items sec) 3 = Some (hdr_div "img_bb")
    /\ nth_error (grid_items sec) 11 = Some CELL_OPEN.
Proof.
  destruct (cell_under_its_header (FS := Ref.file_system) Sample.world0
              Sample.org_dir Sample.two_models DEFAULT_SUBFOLDERS "a.JPG"
              _ 1 2 ["m2"] "img_bb" eq_refl eq_refl eq_refl)
    as (H1 & pre & content & post & _ & _ & H3).
  eexists. split; [reflexivity |]. split; [exact H1 | exact H3].
Defined.

Lemma original_present_cell_witness :
  exists sec uri,
    exists_ (FileSystem := Ref.file_system) Sample.world0 ["o"; "a.JPG"] = true
    /\ section (FS := Ref.file_system) Sample.world0 Sample.org_dir
         Sample.two_models ["m1"; "m2"] ["allResult"] "a.JPG" = Some sec
    /\ encode_data_uri (FS := Ref.file_system) Sample.world0 ["o"; "a.JPG"]
       = Some uri
    /\ nth_error sec 10 = Some ("<img src='" ++ uri ++ "' alt='org:a.JPG'>").
Proof.
  destruct (original_present_cell (FS := Ref.file_system) Sample.world0
              Sample.org_dir Sample.two_models ["allResult"] "a.JPG"
              _ eq_refl eq_refl) as (uri & Hu & H).
  eexists _, uri. split; [reflexivity |]. split; [reflexivity |].
  split; [exact Hu |].
  injection Hu as <-. reflexivity.
Defined.

Lemma images_and_markers_counted_witness :
  exists sec,
    section (FS := Ref.file_system) Sample.world0 Sample.org_dir
      Sample.two_models ["m1"; "m2"] DEFAULT_SUBFOLDERS "a.JPG" = Some sec
    /\ List.length (filter is_img sec) = 2
    /\ List.length (filter is_missing sec) + 1 = 6.
Proof.
  destruct (images_and_markers_counted (FS := Ref.file_system) Sample.world0
              Sample.org_dir Sample.two_models DEFAULT_SUBFOLDERS "a.JPG"
              _ eq_refl) as (H1 & H2).
  eexists. split; [reflexivity |]. split; [exact H1 | exact H2].
Defined.


Lemma ref_mime_database_clean (w : Ref.world) (s m : string) :
  Ref.guess_type w s = Some m -> Html.skeleton m = EmptyString.
Proof.
  unfold Ref.guess_type.
  repeat match goal with
         | |- context [if ?b then _ else _] => destruct b
         end; intros [= <-]; reflexivity.
Defined.



Lemma main_reports_first_invalid_witness :
  main (FS := Ref.file_system) Sample.world0 Sample.args_bad_model
  = (Sample.world0,
     SystemExit "[ERROR] model dir not found or not a directory: /o/b.png").
Proof.
  apply (proj2 (main_reports_first_invalid (FS := Ref.file_system)
                  Sample.world0 Sample.args_bad_model)
           [["m1"]] ["o"; "b.png"] []); try reflexivity.
  intros m [<- | []]. reflexivity.
Defined.

Lemma no_image_no_section_witness :
  iterdir (FileSystem := Ref.file_system) Sample.world0 ["m2"] = Some []
  /\ build_html (FS := Ref.file_system) Sample.world0 ["m2"]
       Sample.two_models DEFAULT_SUBFOLDERS "t" 420
     = Some (String.concat nl
               (head_parts (P := Ref.path_ops) ["m2"] Sample.two_models
                  DEFAULT_SUBFOLDERS "t" 420
                ++ ["</div></body></html>"])%list).
Proof.
  split; [reflexivity |].
  apply (no_image_no_section (FS := Ref.file_system) Sample.world0 ["m2"]
           Sample.two_models DEFAULT_SUBFOLDERS "t" 420 [] eq_refl).
  intros p [].
Defined.

(** ** Balanced [div] elements *)

Module CountFacts.
Import Html.

Lemma count_skip (r a b : string) :
  skeleton a = EmptyString ->
  count_str (String "<" r) (a ++ b) = count_str (String "<" r) b.
Proof.
  induction a as [| c t IH]; intros H.
  - reflexivity.
  - simpl in H. destruct (is_delim c) eqn:D; [discriminate |].
    apply HtmlFacts.not_lt_of_not_delim in D.
    change (String c t ++ b) with (String c (t ++ b)).
    cbn [count_str String.prefix].
    destruct (ascii_dec "<" c) as [<- | _]; [discriminate |].
    simpl. now apply IH.
Qed.

Lemma count_zero (r a : string) :
  skeleton a = EmptyString -> count_str (String "<" r) a = 0.
Proof.
  intros H. rewrite <- (StringFacts.append_nil_r a).
  now rewrite count_skip.
Qed.

Lemma prefix_app_nl (needle a b : string) :
  no_newline needle = true ->
  String.prefix needle (a ++ nl ++ b) = String.prefix needle a.
Proof.
  revert needle. induction a as [| y t IH]; intros [| x r] H;
    try reflexivity.
  - cbn in H. apply andb_prop in H. destruct H as [Hx _].
    apply negb_true_iff in Hx.
    cbn [append nl String.prefix].
    destruct (ascii_dec x (ascii_of_nat 10)) as [-> | _];
      [discriminate | reflexivity].
  - cbn in H. apply andb_prop in H. destruct H as [_ Hr].
    change (String y t ++ nl ++ b) with (String y (t ++ nl ++ b)).
    cbn [String.prefix].
    destruct (ascii_dec x y); [now apply IH | reflexivity].
Qed.

Lemma count_app_nl (x : ascii) (r a b : string) :
  no_newline (String x r) = true ->
  count_str (String x r) (a ++ nl ++ b)
  = count_str (String x r) a + count_str (String x r) b.
Proof.
  intros H. induction a as [| y t IH].
  - cbn [append nl count_str String.prefix].
    cbn in H. apply andb_prop in H. destruct H as [Hx _].
    apply negb_true_iff in Hx.
    destruct (ascii_dec x (ascii_of_nat 10)) as [-> | _];
      [discriminate | reflexivity].
  - change (String y t ++ nl ++ b) with (String y (t ++ nl ++ b)).
    cbn [count_str].
    change (String y (t ++ nl ++ b)) with (String y t ++ nl ++ b).
    rewrite (prefix_app_nl _ _ _ H), IH. lia.
Qed.

Lemma count_concat_nl (x : ascii) (r : string) (parts : list string) :
  no_newline (String x r) = true ->
  count_str (String x r) (String.concat nl parts)
  = list_sum (map (count_str (String x r)) parts).
Proof.
  intros H. induction parts as [| p parts IH]; [reflexivity |].
  destruct parts as [| q parts].
  - simpl. lia.
  - change (String.concat nl (p :: q :: parts))
      with (p ++ nl ++ String.concat nl (q :: parts)).
    rewrite (count_app_nl _ _ _ _ H), IH. reflexivity.
Qed.

End CountFacts.

Ltac gen_escapes :=
  repeat match goal with
         | |- context [Html.escape ?u] =>
             let K := fresh "K" in
             pose proof (HtmlFacts.skeleton_escape u) as K;
             revert K; generalize (Html.escape u); intros ? K
         end.

Ltac count_through :=
  unfold div_opens, div_closes;
  rewrite ?StringFacts.append_assoc;
  gen_escapes;
  repeat (simpl;
          match goal with
          | K : Html.skeleton ?e = EmptyString
            |- context [count_str _ (?e ++ _)] =>
              rewrite (CountFacts.count_skip _ e _ K)
          end);
  simpl; try reflexivity.

Lemma total_div_opens_app (a b : list string) :
  total_div_opens (a ++ b) = total_div_opens a + total_div_opens b.
Proof.
  unfold total_div_opens. now rewrite map_app, list_sum_app.
Qed.

Lemma total_div_closes_app (a b : list string) :
  total_div_closes (a ++ b) = total_div_closes a + total_div_closes b.
Proof.
  unfold total_div_closes. now rewrite map_app, list_sum_app.
Qed.

Lemma for_each_balanced {A : Type} (body : A -> option (list string))
  (l : list A) (r : list string) :
  (forall x c, body x = Some c -> total_div_opens c = total_div_closes c) ->
  for_each body l = Some r ->
  total_div_opens r = total_div_closes r.
Proof.
  intros Hb. revert r. induction l as [| x l IH]; intros r H.
  - now injection H as <-.
  - apply for_each_cons_inv in H. destruct H as (c & r' & Hc & Hr & ->).
    rewrite total_div_opens_app, total_div_closes_app, (Hb _ _ Hc), (IH _ Hr).
    reflexivity.
Qed.

Lemma code_list_no_div (r : string) (f : string -> string) (l : list string)
  (tail : string) :
  (forall e, Html.skeleton e = EmptyString ->
     count_str (String "<" r) ("<code>" ++ e ++ "</code>" ++ tail)
     = count_str (String "<" r) tail) ->
  (forall e b, Html.skeleton e = EmptyString ->
     count_str (String "<" r) ("<code>" ++ e ++ "</code>" ++ ", " ++ b)
     = count_str (String "<" r) b) ->
  count_str (String "<" r)
    (String.concat ", "
       (map (fun x => "<code>" ++ Html.escape (f x) ++ "</code>") l) ++ tail)
  = count_str (String "<" r) tail.
Proof.
  intros H1 H2. induction l as [| x l IH]; [reflexivity |].
  destruct l as [| y l].
  - change (String.concat ", "
              (map (fun x => "<code>" ++ Html.escape (f x) ++ "</code>") [x]))
      with ("<code>" ++ Html.escape (f x) ++ "</code>").
    rewrite !StringFacts.append_assoc.
    apply H1, HtmlFacts.skeleton_escape.
  - change (String.concat ", "
              (map (fun x => "<code>" ++ Html.escape (f x) ++ "</code>")
                 (x :: y :: l)))
      with (("<code>" ++ Html.escape (f x) ++ "</code>") ++ ", "
            ++ String.concat ", "
                 (map (fun x => "<code>" ++ Html.escape (f x) ++ "</code>")
                    (y :: l))).
    rewrite !StringFacts.append_assoc.
    rewrite H2 by apply HtmlFacts.skeleton_escape. exact IH.
Qed.

Section Balanced.

Context {P : PathOps} {FS : FileSystem P}.

Local Open Scope path_scope.

Variable w : World.

Hypothesis clean_db :
  forall s m, guess_type w s = Some m -> Html.skeleton m = EmptyString.

Lemma img_tag_no_div (path : Path) (uri alt : string) :
  encode_data_uri w path = Some uri ->
  Html.skeleton alt = EmptyString ->
  div_opens (img_tag uri alt) = 0 /\ div_closes (img_tag uri alt) = 0.
Proof.
  intros Hu Ha. pose proof (skeleton_data_uri w clean_db _ _ Hu) as U.
  unfold img_tag. split; count_through.
Qed.

Lemma model_cell_balanced (m : Path) (label fname sub : string)
  (c : list string) :
  model_cell w m label fname sub = Some c ->
  total_div_opens c = total_div_closes c.
Proof.
  intros H. apply model_cell_inv in H. destruct H as (content & -> & Ht & Hf).
  unfold total_div_opens, total_div_closes. cbn [map list_sum fold_right].
  assert (L : div_opens (label_div label sub) = 1
              /\ div_closes (label_div label sub) = 1)
    by (unfold label_div; split; count_through).
  destruct L as [L1 L2]. rewrite L1, L2.
  destruct (exists_ w (m </> sub </> fname)).
  - destruct (Ht eq_refl) as (uri & Hu & ->).
    destruct (img_tag_no_div _ _ _ Hu (skeleton_model_alt label sub fname))
      as [I1 I2].
    rewrite I1, I2. reflexivity.
  - rewrite (Hf eq_refl). reflexivity.
Qed.

Lemma org_cell_balanced (org_dir : Path) (fname : string) (o : list string) :
  org_cell w org_dir fname = Some o ->
  total_div_opens o = total_div_closes o.
Proof.
  intros H. apply org_cell_inv in H. destruct H as [Ht Hf].
  destruct (exists_ w (org_dir </> fname)).
  - destruct (Ht eq_refl) as (uri & Hu & ->).
    unfold total_div_opens, total_div_closes. cbn [map list_sum fold_right].
    assert (Ka : Html.skeleton ("org:" ++ Html.escape fname) = EmptyString)
      by now rewrite HtmlFacts.skeleton_app, HtmlFacts.skeleton_escape.
    destruct (img_tag_no_div _ _ _ Hu Ka) as [I1 I2].
    rewrite I1, I2. reflexivity.
  - rewrite (Hf eq_refl). reflexivity.
Qed.

Lemma hdrs_balanced (subfolders : list string) :
  total_div_opens (map hdr_div subfolders)
  = total_div_closes (map hdr_div subfolders).
Proof.
  induction subfolders as [| s l IH]; [reflexivity |].
  change (map hdr_div (s :: l)) with ([hdr_div s] ++ map hdr_div l)%list.
  rewrite total_div_opens_app, total_div_closes_app, IH. f_equal.
  unfold total_div_opens, total_div_closes. cbn [map list_sum fold_right].
  assert (L : div_opens (hdr_div s) = 1 /\ div_closes (hdr_div s) = 1)
    by (unfold hdr_div; split; count_through).
  destruct L as [-> ->]. reflexivity.
Qed.

Lemma section_balanced (org_dir : Path) (models : list Path)
  (model_labels subfolders : list string) (fname : string) (sec : list string) :
  section w org_dir models model_labels subfolders fname = Some sec ->
  total_div_opens sec = total_div_closes sec.
Proof.
  intros H. apply section_inv in H.
  destruct H as (o & row1 & rows & Ho & H1 & Hr & ->).
  rewrite !total_div_opens_app, !total_div_closes_app.
  rewrite hdrs_balanced, (org_cell_balanced _ _ _ Ho).
  assert (B1 : total_div_opens row1 = total_div_closes row1).
  { unfold first_row in H1. destruct models as [| m0 ms].
    - injection H1 as <-. clear.
      induction subfolders as [| s l IH]; [reflexivity |].
      change (map (fun _ : string => NO_MODEL) (s :: l))
        with ([NO_MODEL] ++ map (fun _ : string => NO_MODEL) l)%list.
      rewrite total_div_opens_app, total_div_closes_app, IH. reflexivity.
    - destruct (nth_error model_labels 0) as [label0 |]; [| discriminate].
      eapply for_each_balanced; [| exact H1].
      intros sub c. apply model_cell_balanced. }
  assert (Br : total_div_opens rows = total_div_closes rows).
  { eapply for_each_balanced; [| exact Hr].
    intros [m label] row Hrow.
    apply other_row_inv in Hrow. destruct Hrow as (cells & Hc & ->).
    change (PLACEHOLDER :: cells) with ([PLACEHOLDER] ++ cells)%list.
    rewrite total_div_opens_app, total_div_closes_app. f_equal.
    eapply for_each_balanced; [| exact Hc].
    intros sub c. apply model_cell_balanced. }
  rewrite B1, Br.
  assert (O : total_div_opens (section_open fname) = 5
              /\ total_div_closes (section_open fname) = 4).
  { unfold total_div_opens, total_div_closes, section_open.
    cbn [map list_sum fold_right].
    assert (L : div_opens (fname_div fname) = 1
                /\ div_closes (fname_div fname) = 1)
      by (unfold fname_div; split; count_through).
    destruct L as [-> ->]. split; reflexivity. }
  destruct O as [O1 O2]. rewrite O1, O2.
  change (total_div_opens ["</div>"; "</section>"]) with 0.
  change (total_div_closes ["</div>"; "</section>"]) with 1.
  lia.
Qed.

Lemma code_list_line_no_div (f : string -> string) (l : list string)
  (pre tail : string) :
  Html.skeleton pre = EmptyString ->
  Html.skeleton tail = EmptyString ->
  div_opens
    (pre ++ String.concat ", "
              (map (fun x => "<code>" ++ Html.escape (f x) ++ "</code>") l)
     ++ tail) = 0
  /\ div_closes
       (pre ++ String.concat ", "
                 (map (fun x => "<code>" ++ Html.escape (f x) ++ "</code>") l)
        ++ tail) = 0.
Proof.
  intros Kp Kt. unfold div_opens, div_closes.
  rewrite !(CountFacts.count_skip _ pre _ Kp).
  split.
  - rewrite code_list_no_div.
    + now apply CountFacts.count_zero.
    + intros e K. simpl. now rewrite (CountFacts.count_skip _ e _ K).
    + intros e b K. simpl. now rewrite (CountFacts.count_skip _ e _ K).
  - rewrite code_list_no_div.
    + now apply CountFacts.count_zero.
    + intros e K. simpl. now rewrite (CountFacts.count_skip _ e _ K).
    + intros e b K. simpl. now rewrite (CountFacts.count_skip _ e _ K).
Qed.

Lemma head_parts_divs (org_dir : Path) (models : list Path)
  (subfolders : list string) (title : string) (max_height : Z) :
  total_div_opens (head_parts org_dir models subfolders title max_height) = 2
  /\ total_div_closes (head_parts org_dir models subfolders title max_height)
     = 1.
Proof.
  unfold total_div_opens, total_div_closes, head_parts.
  cbn [map list_sum fold_right].
  assert (T : div_opens ("<title>" ++ Html.escape title ++ "</title>") = 0
              /\ div_closes ("<title>" ++ Html.escape title ++ "</title>") = 0)
    by (split; count_through).
  assert (H1 : div_opens ("<h1>" ++ Html.escape title ++ "</h1>") = 0
               /\ div_closes ("<h1>" ++ Html.escape title ++ "</h1>") = 0)
    by (split; count_through).
  assert (O : div_opens ("Org: <code>" ++ Html.escape (str org_dir)
                         ++ "</code> | ") = 0
              /\ div_closes ("Org: <code>" ++ Html.escape (str org_dir)
                             ++ "</code> | ") = 0)
    by (split; count_through).
  assert (C : div_opens (css subfolders max_height) = 0
              /\ div_closes (css subfolders max_height) = 0)
    by (split; apply CountFacts.count_zero, EscapeFacts.skeleton_css).
  assert (M : div_opens
                ("Models: "
                 ++ String.concat ", "
                      (map (fun m => "<code>" ++ Html.escape (str m) ++ "</code>")
                         models)
                 ++ " | ") = 0
              /\ div_closes
                   ("Models: "
                    ++ String.concat ", "
                         (map (fun m => "<code>" ++ Html.escape (str m)
                                        ++ "</code>") models)
                    ++ " | ") = 0).
  { replace (map (fun m => "<code>" ++ Html.escape (str m) ++ "</code>") models)
      with (map (fun x => "<code>" ++ Html.escape ((fun y => y) x) ++ "</code>")
              (map str models)) by now rewrite map_map.
    now apply code_list_line_no_div. }
  assert (F : div_opens
                ("Folders: "
                 ++ String.concat ", "
                      (map (fun s => "<code>" ++ Html.escape s ++ "</code>")
                         subfolders)) = 0
              /\ div_closes
                   ("Folders: "
                    ++ String.concat ", "
                         (map (fun s => "<code>" ++ Html.escape s ++ "</code>")
                            subfolders)) = 0).
  { rewrite <- (StringFacts.append_nil_r
                  (String.concat ", "
                     (map (fun s => "<code>" ++ Html.escape s ++ "</code>")
                        subfolders))).
    now apply (code_list_line_no_div (fun y => y)). }
  destruct T as [T1 T2], H1 as [H11 H12], O as [O1 O2], C as [C1 C2],
    M as [M1 M2], F as [F1 F2].
  rewrite T1, T2, H11, H12, O1, O2, C1, C2, M1, M2, F1, F2.
  split; reflexivity.
Qed.


End Balanced.


Lemma main_succeeds_iff_witness :
  exit_status (snd (main (FS := Ref.file_system) Sample.world0 Sample.args_ok))
  = 0
  /\ exists html w2,
       build_html (FS := Ref.file_system) Sample.world0 Sample.org_dir
         Sample.two_models DEFAULT_SUBFOLDERS "Model Comparison Matrix" 420
       = Some html
       /\ main (FS := Ref.file_system) Sample.world0 Sample.args_ok
          = (w2, Exit0 "[OK] Wrote: /site/gallery.html")
       /\ Ref.read_bytes w2 ["site"; "gallery.html"]
          = Some (list_byte_of_string html).
Proof.
  assert (E : exit_status
                (snd (main (FS := Ref.file_system) Sample.world0
                        Sample.args_ok)) = 0) by reflexivity.
  split; [exact E |].
  destruct (proj1 (main_succeeds_iff (FS := Ref.file_system) Sample.world0
                     Sample.args_ok) E)
    as (html & w1 & w2 & _ & _ & Hb & Hd & Hw & Hm).
  exists html, w2. split; [exact Hb |]. split; [exact Hm |].
  cbn in Hd. injection Hd as <-.
  cbn in Hw. unfold Ref.write_text in Hw. cbn in Hw.
  injection Hw as <-. reflexivity.
Defined.
